(** * EA-PS2000 power supply driver: the protocol layer of [ps2000.py]

    A shallow embedding of the class [ps2000]: telegram construction,
    checksum and error checks, the request/response transfer, the typed
    object accessors, and the properties the specification states about
    them.

    Conventions of the embedding.
    - Python integers are [Z]; a [bytes]/[bytearray] value is a [list Z]
      and the range check [0 <= x < 256] that [bytearray] performs on
      every store is written out ([bytearray_append] and friends).
    - Python floats are Rocq's primitive binary64 floats, which is the
      representation CPython uses.
    - An exception is a value of [exn]; [sys.exit(1)] raises
      [SystemExit 1].  A method that touches the serial port, the
      attributes of [self] or the standard output is a function from
      [world] to a result and a new [world].
    - [print] is recorded as an event (the format string, its arguments and
      whether a newline ends it); the characters that the [%] operator
      produces are not modelled. *)

From Stdlib Require Import ZArith Floats.
From stdpp Require Import gmap strings list.

Open Scope Z_scope.

(** ** Python values and exceptions *)

Module Py.

Inductive exn : Type :=
  | ValueError
  | IndexError
  | TypeError
  | ZeroDivisionError
  | OverflowError
  | StructError
  | KeyError
  | SystemExit (status : Z).

Inductive result (A : Type) : Type :=
  | Ok (a : A)
  | Raise (e : exn).

Arguments Ok {A} a.
Arguments Raise {A} e.

Definition bind {A B : Type} (r : result A) (k : A -> result B) : result B :=
  match r with
  | Ok a => k a
  | Raise e => Raise e
  end.

(** A number as Python sees it: an [int] or a [float]. *)
Inductive num : Type :=
  | Int (z : Z)
  | Float (f : float).

(** [float(z)] for an [int]: correctly rounded, [OverflowError] when the
    integer is too large for a binary64. *)
Definition float_of_int (z : Z) : result float :=
  match SpecFloat.binary_normalize 53 1024 z 0 false with
  | S754_infinity _ => Raise OverflowError
  | sf => Ok (SF2Prim sf)
  end.

Definition to_float (n : num) : result float :=
  match n with
  | Int z => float_of_int z
  | Float f => Ok f
  end.

(** [a * b] where at least one side is a float. *)
Definition float_mul (a b : num) : result float :=
  bind (to_float a) (fun x => bind (to_float b) (fun y => Ok (x * y)%float)).

(** [a / b] where at least one side is a float. *)
Definition float_truediv (a b : num) : result float :=
  bind (to_float a) (fun x =>
  bind (to_float b) (fun y =>
  if (y =? 0)%float then Raise ZeroDivisionError else Ok (x / y)%float)).

(** [round(x)] for a float [x] and no [ndigits]: the nearest integer, ties
    to the even one; [OverflowError] on an infinity, [ValueError] on a NaN. *)
Definition round_half_even (m : positive) (e : Z) : Z :=
  if 0 <=? e then Z.pos m * 2 ^ e
  else
    let d := 2 ^ (- e) in
    let q := Z.pos m / d in
    let r := Z.pos m mod d in
    match 2 * r ?= d with
    | Lt => q
    | Gt => q + 1
    | Eq => if Z.even q then q else q + 1
    end.

Definition round (x : float) : result Z :=
  match Prim2SF x with
  | S754_zero _ => Ok 0
  | S754_infinity _ => Raise OverflowError
  | S754_nan => Raise ValueError
  | S754_finite s m e =>
      let n := round_half_even m e in
      Ok (if s then - n else n)
  end.

(** [l[i]] with Python's negative indices. *)
Definition getitem (l : list Z) (i : Z) : result Z :=
  let n := Z.of_nat (length l) in
  let j := if i <? 0 then i + n else i in
  if (0 <=? j) && (j <? n) then
    match l !! Z.to_nat j with
    | Some x => Ok x
    | None => Raise IndexError
    end
  else Raise IndexError.

(** [l[start:stop]] with Python's negative bounds and clamping. *)
Definition clamp (n i : Z) : Z :=
  let j := if i <? 0 then i + n else i in
  Z.max 0 (Z.min n j).

Definition slice (l : list Z) (start stop : Z) : list Z :=
  let n := Z.of_nat (length l) in
  let a := clamp n start in
  let b := clamp n stop in
  take (Z.to_nat (b - a)) (drop (Z.to_nat a) l).

Definition len (l : list Z) : Z := Z.of_nat (length l).

(** [for b in l: cs += b], starting from [cs = 0]. *)
Definition sum_bytes (l : list Z) : Z := foldl (fun cs b => cs + b) 0 l.

(** *** [bytearray]: every stored value is checked to be a byte *)

Definition is_byte (x : Z) : bool := (0 <=? x) && (x <? 256).

Definition bytearray_append (t : list Z) (x : Z) : result (list Z) :=
  if is_byte x then Ok (t ++ [x]) else Raise ValueError.

Definition bytearray_extend (t : list Z) (data : list Z) : result (list Z) :=
  if forallb is_byte data then Ok (t ++ data) else Raise ValueError.

(** [t[0] += d] *)
Definition bytearray_iadd0 (t : list Z) (d : Z) : result (list Z) :=
  bind (getitem t 0) (fun x =>
  if is_byte (x + d) then Ok (<[0%nat := x + d]> t) else Raise ValueError).

(** [struct.unpack('>f', b)[0]]: four bytes, big-endian IEEE-754 binary32,
    widened (exactly) to a Python float. *)
Definition unpack_binary32 (bits : Z) : float :=
  let s := Z.testbit bits 31 in
  let e := Z.land (Z.shiftr bits 23) 0xff in
  let m := Z.land bits 0x7fffff in
  if (e =? 255)%Z then
    if (m =? 0)%Z then (if s then neg_infinity else infinity) else nan
  else if (e =? 0)%Z then
    match m with
    | Z.pos p => SF2Prim (S754_finite s p (-149))
    | _ => if s then neg_zero else zero
    end
  else
    match (m + 0x800000)%Z with
    | Z.pos p => SF2Prim (S754_finite s p (e - 150)%Z)
    | _ => nan
    end.

Definition struct_unpack_f (b : list Z) : result float :=
  match b with
  | [b0; b1; b2; b3] =>
      Ok (unpack_binary32
            (Z.lor (Z.shiftl b0 24)
               (Z.lor (Z.shiftl b1 16) (Z.lor (Z.shiftl b2 8) b3))))
  | _ => Raise StructError
  end.

End Py.

Import Py.

(** ** The process: the object's attributes, the serial port, the output *)

Inductive fmt_arg : Type :=
  | ArgInt (z : Z)
  | ArgFloat (f : float).

(** One call of [print]: the format string, the arguments of [%] and
    whether the default newline ends it ([end=''] gives [false]). *)
Record printed : Type := Printed {
  text : string;
  args : list fmt_arg;
  newline : bool }.

Record world : Type := World {
  verbose : bool;            (* self.verbose *)
  u_nom : float;             (* self.u_nom, set by __init__ from object 2 *)
  i_nom : float;             (* self.i_nom, set by __init__ from object 3 *)
  written : list (list Z);   (* the arguments of ser_dev.write, oldest first *)
  incoming : list Z;         (* the bytes that arrive before a read times out *)
  stdout : list printed }.

Definition M (A : Type) : Type := world -> result A * world.

Definition ret {A : Type} (a : A) : M A := fun w => (Ok a, w).

Definition mbind {A B : Type} (m : M A) (k : A -> M B) : M B :=
  fun w =>
    match m w with
    | (Ok a, w') => k a w'
    | (Raise e, w') => (Raise e, w')
    end.

Definition lift {A : Type} (r : result A) : M A := fun w => (r, w).

Notation "'let?' x ':=' e 'in' k" := (Py.bind e (fun x => k))
  (at level 10, x name, e at level 100, k at level 200, only parsing).
Notation "'let!' x ':=' e 'in' k" := (mbind e (fun x => k))
  (at level 10, x name, e at level 100, k at level 200, only parsing).
Notation "e ';;' k" := (mbind e (fun _ => k))
  (at level 100, k at level 200, right associativity, only parsing).

(** The process after [out] has been printed. *)
Definition emit (w : world) (out : list printed) : world :=
  World (verbose w) (u_nom w) (i_nom w) (written w) (incoming w)
        (stdout w ++ out).

Definition print_event (p : printed) : M unit := fun w => (Ok tt, emit w [p]).

(** [print(s)], [print(s, end='')], [print(s % z, end='')], [print(s % f)] *)
Definition print (s : string) : M unit := print_event (Printed s [] true).
Definition print_noend (s : string) : M unit := print_event (Printed s [] false).
Definition print_int (s : string) (z : Z) : M unit :=
  print_event (Printed s [ArgInt z] true).
Definition print_int_noend (s : string) (z : Z) : M unit :=
  print_event (Printed s [ArgInt z] false).
Definition print_float (s : string) (f : float) : M unit :=
  print_event (Printed s [ArgFloat f] true).

(** [sys.exit(status)] *)
Definition sys_exit (status : Z) : M unit := lift (Raise (SystemExit status)).

(** [for b in l: body(b)] *)
Fixpoint for_each (l : list Z) (body : Z -> M unit) : M unit :=
  match l with
  | [] => ret tt
  | b :: l' => body b;; for_each l' body
  end.

(** [self.ser_dev.write(telegram)] *)
Definition ser_write (telegram : list Z) : M unit :=
  fun w => (Ok tt,
            World (verbose w) (u_nom w) (i_nom w) (written w ++ [telegram])
                  (incoming w) (stdout w)).

(** [self.ser_dev.read(size)]: what has arrived when the timeout strikes,
    at most [size] bytes. *)
Definition ser_read (size : nat) : M (list Z) :=
  fun w => (Ok (take size (incoming w)),
            World (verbose w) (u_nom w) (i_nom w) (written w)
                  (drop size (incoming w)) (stdout w)).

Definition get_verbose : M bool := fun w => (Ok (verbose w), w).
Definition get_u_nom : M float := fun w => (Ok (u_nom w), w).
Definition get_i_nom : M float := fun w => (Ok (i_nom w), w).

(** ** Telegram codec *)

Definition PS_QUERY : Z := 0x40.
Definition PS_SEND : Z := 0xc0.

(** [_construct(self, type, node, obj, data)] *)
Definition _construct (type node obj : Z) (data : list Z) : result (list Z) :=
  let telegram := [] in
  let? telegram := bytearray_append telegram (0x30 + type) in
  let? telegram := bytearray_append telegram node in
  let? telegram := bytearray_append telegram obj in
  let? telegram :=
    (if 0 <? len data then
       let? telegram := bytearray_extend telegram data in
       bytearray_iadd0 telegram (len data - 1)
     else Ok telegram) in
  let cs := sum_bytes telegram in
  let? telegram := bytearray_append telegram (Z.shiftr cs 8) in
  let? telegram := bytearray_append telegram (Z.land cs 0xff) in
  Ok telegram.

(** [_check_checksum(self, ans)]; the [return False] after [sys.exit(1)]
    is kept where the source has it. *)
Definition _check_checksum (ans : list Z) : M bool :=
  let cs := sum_bytes (slice ans 0 (-2)) in
  let! mismatch :=
    lift (let? hi := getitem ans (-2) in
          if negb (hi =? Z.shiftr cs 8) then Ok true
          else let? lo := getitem ans (-1) in
               Ok (negb (lo =? Z.land cs 0xff))) in
  if (mismatch : bool) then
    print "ERROR: checksum mismatch";;
    sys_exit 1;;
    ret false
  else ret true.

(** [_check_error(self, ans)] *)
Definition _check_error (ans : list Z) : M bool :=
  let! a2 := lift (getitem ans 2) in
  if negb (a2 =? 0xff) then ret false
  else
    let! a3 := lift (getitem ans 3) in
    if a3 =? 0x00 then ret false
    else
      (if a3 =? 0x03 then print "ERROR: checksum incorrect"
       else if a3 =? 0x04 then print "ERROR: start delimiter incorrect"
       else if a3 =? 0x05 then print "ERROR: wrong address for output"
       else if a3 =? 0x07 then print "ERROR: object not defined"
       else if a3 =? 0x08 then print "ERROR: object length incorrect"
       else if a3 =? 0x09 then print "ERROR: access denied"
       else if a3 =? 0x0f then print "ERROR: device is locked"
       else if a3 =? 0x30 then print "ERROR: upper limit exceeded"
       else if a3 =? 0x31 then print "ERROR: lower limt exceeded"
       else ret tt);;
      print_noend "answer: ";;
      for_each ans (fun b => print_int_noend "%02x " b);;
      print "";;
      sys_exit 1;;
      ret true.

(** ** Object transfer *)

(** [_transfer(self, type, node, obj, data)] *)
Definition _transfer (type node obj : Z) (data : list Z) : M (list Z) :=
  let! telegram := lift (_construct type 0 obj data) in
  let! v := get_verbose in
  (if (v : bool) then
     print_noend "* telegram: ";;
     for_each telegram (fun b => print_int_noend "%02x " b);;
     print ""
   else ret tt);;
  ser_write telegram;;
  let! ans := ser_read 100 in
  let! v := get_verbose in
  (if (v : bool) then
     print_noend "* answer:   ";;
     for_each ans (fun b => print_int_noend "%02x " b);;
     print ""
   else ret tt);;
  (if len ans <? 5 then
     print_int "ERROR: short answer (%d bytes received)" (len ans);;
     sys_exit 1
   else ret tt);;
  _check_checksum ans;;
  _check_error ans;;
  ret ans.

(** [_get_binary(self, obj)]; the empty string passed as data has length 0 *)
Definition _get_binary (obj : Z) : M (list Z) :=
  let! ans := _transfer PS_QUERY 0 obj [] in
  ret (slice ans 3 (-2)).

(** [_set_binary(self, obj, mask, data)] *)
Definition _set_binary (obj mask data : Z) : M (list Z) :=
  let! ans := _transfer PS_SEND 0 obj [mask; data] in
  ret (slice ans 3 (-2)).

(** [_get_float(self, obj)] *)
Definition _get_float (obj : Z) : M float :=
  let! ans := _transfer PS_QUERY 0 obj [] in
  lift (struct_unpack_f (slice ans 3 (-2))).

(** The expression [(ans[3] << 8) + ans[4]] of [_get_integer] and
    [_set_integer]. *)
Definition answer_integer (ans : list Z) : result Z :=
  let? a3 := getitem ans 3 in
  let? a4 := getitem ans 4 in
  Ok (Z.shiftl a3 8 + a4).

(** [_get_integer(self, obj)] *)
Definition _get_integer (obj : Z) : M Z :=
  let! ans := _transfer PS_QUERY 0 obj [] in
  lift (answer_integer ans).

(** The list [[data >> 8, data & 0xff]] of [_set_integer]; both operators
    are defined on [int] only. *)
Definition integer_data (data : num) : result (list Z) :=
  match data with
  | Int z => Ok [Z.shiftr z 8; Z.land z 0xff]
  | Float _ => Raise TypeError
  end.

(** [_set_integer(self, obj, data)] *)
Definition _set_integer (obj : Z) (data : num) : M Z :=
  let! d := lift (integer_data data) in
  let! ans := _transfer PS_SEND 0 obj d in
  lift (answer_integer ans).

(** ** Typed accessors *)

(** A value stored in the dictionaries that [get_control], [get_actual]
    and [get_setpoints] return. *)
Inductive value : Type :=
  | Bool (b : bool)
  | Number (f : float).

(** [d[key]] for a dictionary. *)
Definition dict_getitem (d : gmap string value) (key : string) : result value :=
  match d !! key with
  | Some v => Ok v
  | None => Raise KeyError
  end.

(** [True if z else False] *)
Definition truthy (z : Z) : bool := negb (z =? 0).

(** [nom * raw / 25600] with [nom] a float and [raw] an int. *)
Definition scaled (nom : float) (raw : Z) : result float :=
  let? p := float_mul (Float nom) (Int raw) in
  float_truediv (Float p) (Int 25600).

(** [int(round((x * 25600.0) / nom))] *)
Definition unscaled (x : num) (nom : float) : result Z :=
  let? p := float_mul x (Float 25600) in
  let? q := float_truediv (Float p) (Float nom) in
  Py.round q.

(** object 2 *)
Definition get_nominal_voltage : M float := _get_float 2.

(** object 3 *)
Definition get_nominal_current : M float := _get_float 3.

(** object 4 *)
Definition get_nominal_power : M float := _get_float 4.

(** object 19 *)
Definition get_device_class : M Z := _get_integer 19.

(** object 38 *)
Definition get_OVP_threshold : M float :=
  let! v := _get_integer 38 in
  let! nom := get_u_nom in
  lift (scaled nom v).

Definition set_OVP_threshold (u : num) : M Z := _set_integer 38 u.

(** object 39 *)
Definition get_OCP_threshold : M float :=
  let! i := _get_integer 39 in
  let! nom := get_i_nom in
  lift (scaled nom i).

Definition set_OCP_threshold (i : num) : M Z := _set_integer 39 i.

(** object 50 *)
Definition get_voltage_setpoint : M float :=
  let! v := _get_integer 50 in
  let! nom := get_u_nom in
  lift (scaled nom v).

Definition set_voltage (u : num) : M Z :=
  let! nom := get_u_nom in
  let! raw := lift (unscaled u nom) in
  _set_integer 50 (Int raw).

(** object 51 *)
Definition get_current_setpoint : M float :=
  let! i := _get_integer 51 in
  let! nom := get_i_nom in
  lift (scaled nom i).

Definition set_current (i : num) : M Z :=
  let! nom := get_i_nom in
  let! raw := lift (unscaled i nom) in
  _set_integer 51 (Int raw).

(** object 54 *)
Definition get_control : M (gmap string value) :=
  let! ans := _get_binary 54 in
  let control : gmap string value := ∅ in
  let! a1 := lift (getitem ans 1) in
  let control := <["output_on" := Bool (truthy (Z.land a1 0x01))]> control in
  let! a0 := lift (getitem ans 0) in
  let control := <["remote" := Bool (truthy (Z.land a0 0x01))]> control in
  ret control.

(** [_set_control(self, mask, data)]; [and] does not evaluate [ans[1]] when
    [ans[0] == 0xff] is false. *)
Definition _set_control (mask data : Z) : M bool :=
  let! ans := _set_binary 54 mask data in
  lift (let? a0 := getitem ans 0 in
        if a0 =? 0xff then
          let? a1 := getitem ans 1 in Ok (a1 =? 0x00)
        else Ok false).

Definition get_remote : M value :=
  let! control := get_control in
  lift (dict_getitem control "remote").

Definition set_remote (remote : bool) : M bool :=
  if remote then _set_control 0x10 0x10 else _set_control 0x10 0x00.

Definition set_local (local : bool) : M bool := set_remote (negb local).

Definition get_output_on : M value :=
  let! control := get_control in
  lift (dict_getitem control "output_on").

Definition set_output_on (on : bool) : M bool :=
  if on then _set_control 0x01 0x01 else _set_control 0x01 0x00.

Definition set_output_off (off : bool) : M bool := set_output_on (negb off).

(** The dictionary that [get_actual] builds from the payload [ans] of
    object 71 and the two nominal values (the statements between the
    transfer and the printing). *)
Definition decode_actual (nom_u nom_i : float) (ans : list Z)
  : result (gmap string value) :=
  let actual : gmap string value := ∅ in
  let? a0 := getitem ans 0 in
  let remote := truthy (Z.land a0 0x03) in
  let actual := <["remote" := Bool remote]> actual in
  let actual := <["local" := Bool (negb remote)]> actual in
  let? a1 := getitem ans 1 in
  let actual := <["on" := Bool (truthy (Z.land a1 0x01))]> actual in
  let cc := truthy (Z.land a1 0x06) in
  let actual := <["CC" := Bool cc]> actual in
  let actual := <["CV" := Bool (negb cc)]> actual in
  let actual := <["OVP" := Bool (truthy (Z.land a1 0x10))]> actual in
  let actual := <["OCP" := Bool (truthy (Z.land a1 0x20))]> actual in
  let actual := <["OPP" := Bool (truthy (Z.land a1 0x40))]> actual in
  let actual := <["OTP" := Bool (truthy (Z.land a1 0x80))]> actual in
  let? a2 := getitem ans 2 in
  let? a3 := getitem ans 3 in
  let? v := scaled nom_u (Z.shiftl a2 8 + a3) in
  let actual := <["v" := Number v]> actual in
  let? a4 := getitem ans 4 in
  let? a5 := getitem ans 5 in
  let? i := scaled nom_i (Z.shiftl a4 8 + a5) in
  let actual := <["i" := Number i]> actual in
  Ok actual.

(** [if actual[key]: print(yes) else: print(no)] *)
Definition print_flag (actual : gmap string value) (key yes no : string)
  : M unit :=
  let! v := lift (dict_getitem actual key) in
  match v with
  | Bool true => print yes
  | Bool false => print no
  | Number f => if (f =? 0)%float then print no else print yes
  end.

Definition print_number (actual : gmap string value) (key fmt : string)
  : M unit :=
  let! v := lift (dict_getitem actual key) in
  match v with
  | Number f => print_float fmt f
  | Bool b => print_float fmt (if b then 1 else 0)%float
  end.

(** [get_actual(self, print_state=False)] *)
Definition get_actual (print_state : bool) : M (gmap string value) :=
  let! ans := _get_binary 71 in
  let! nom_u := get_u_nom in
  let! nom_i := get_i_nom in
  let! actual := lift (decode_actual nom_u nom_i ans) in
  (if print_state then
     print_flag actual "remote" "remote" "local";;
     print_flag actual "on" "output on" "output off";;
     print_flag actual "CC" "constant current" "constant voltage";;
     print_flag actual "OVP" "over-voltage protection active"
                "over-voltage protection inactive";;
     print_flag actual "OCP" "over-current protection active"
                "over-current protection inactive";;
     print_flag actual "OPP" "over-power protection active"
                "over-power protection inactive";;
     print_flag actual "OTP" "over-temperature protection active"
                "over-temperature protection inactive";;
     print_number actual "v" "actual voltage %fV";;
     print_number actual "i" "actual current %fA"
   else ret tt);;
  ret actual.

(** The dictionary that [get_setpoints] builds from the payload [ans] of
    object 72. *)
Definition decode_setpoints (nom_u nom_i : float) (ans : list Z)
  : result (gmap string value) :=
  let actual : gmap string value := ∅ in
  let? a0 := getitem ans 0 in
  let actual := <["remote" := Bool (truthy (Z.land a0 0x03))]> actual in
  let? a1 := getitem ans 1 in
  let actual := <["on" := Bool (truthy (Z.land a1 0x01))]> actual in
  let actual := <["CC" := Bool (truthy (Z.land a1 0x06))]> actual in
  let actual := <["OVP" := Bool (truthy (Z.land a1 0x10))]> actual in
  let actual := <["OCP" := Bool (truthy (Z.land a1 0x20))]> actual in
  let actual := <["OPP" := Bool (truthy (Z.land a1 0x40))]> actual in
  let actual := <["OTP" := Bool (truthy (Z.land a1 0x80))]> actual in
  let? a2 := getitem ans 2 in
  let? a3 := getitem ans 3 in
  let? v := scaled nom_u (Z.shiftl a2 8 + a3) in
  let actual := <["v" := Number v]> actual in
  let? a4 := getitem ans 4 in
  let? a5 := getitem ans 5 in
  let? i := scaled nom_i (Z.shiftl a4 8 + a5) in
  let actual := <["i" := Number i]> actual in
  Ok actual.

(** [get_setpoints(self)] *)
Definition get_setpoints : M (gmap string value) :=
  let! ans := _get_binary 72 in
  let! nom_u := get_u_nom in
  let! nom_i := get_i_nom in
  lift (decode_setpoints nom_u nom_i ans).

(** ** String objects *)

(** [b.decode('ascii')]: a byte below 128 is the character with that code;
    any other byte raises [UnicodeDecodeError], which is a [ValueError]. *)
Fixpoint decode_ascii (b : list Z) : result string :=
  match b with
  | [] => Ok EmptyString
  | x :: b' =>
      if x <? 128 then
        let? s := decode_ascii b' in
        Ok (String (Ascii.ascii_of_N (Z.to_N x)) s)
      else Raise ValueError
  end.

(** [_get_string(self, obj)] *)
Definition _get_string (obj : Z) : M string :=
  let! ans := _transfer PS_QUERY 0 obj [] in
  lift (decode_ascii (slice ans 3 (-3))).

(** object 0 *)
Definition get_type : M string := _get_string 0.

(** object 1 *)
Definition get_serial : M string := _get_string 1.

(** object 6 *)
Definition get_article : M string := _get_string 6.

(** object 8 *)
Definition get_manufacturer : M string := _get_string 8.

(** object 9 *)
Definition get_version : M string := _get_string 9.

(** * Vocabulary of the statements *)

(** A value that fits a byte. *)
Definition byte (x : Z) : Prop := 0 <= x < 256.

(** The start delimiter after the length update of [_construct]. *)
Definition start_delimiter (type : Z) (data : list Z) : Z :=
  if 0 <? len data then 0x30 + type + (len data - 1) else 0x30 + type.

(** What the loop [for b in l: print('%02x ' % (b), end='')] between a
    label and the closing [print()] writes. *)
Definition dump (label : string) (l : list Z) : list printed :=
  Printed label [] false
  :: map (fun b => Printed "%02x " [ArgInt b] false) l
  ++ [Printed "" [] true].

(** What [verbose] adds to the output for one byte string. *)
Definition verbose_dump (v : bool) (label : string) (l : list Z)
  : list printed :=
  if v then dump label l else [].

(** The process once the telegram is written and the answer is read. *)
Definition exchanged (telegram : list Z) (w : world) : world :=
  World (verbose w) (u_nom w) (i_nom w) (written w ++ [telegram])
        (drop 100 (incoming w))
        (stdout w
         ++ verbose_dump (verbose w) "* telegram: " telegram
         ++ verbose_dump (verbose w) "* answer:   " (take 100 (incoming w))).

(** [not v] for a value stored in a dictionary. *)
Definition negated (v : value) : value :=
  match v with
  | Bool b => Bool (negb b)
  | Number f => Bool (f =? 0)%float
  end.

(** ** Concrete inputs *)

(** A session on a 42 V / 10 A unit, quiet ([verbose] off), nothing written
    or printed yet, with [rx] about to arrive on the serial line. *)
Definition session (rx : list Z) : world := World false 42 10 [] rx [].

(** The device's acknowledge of a SEND: marker 0xFF, code 0x00. *)
Definition acknowledge : list Z := [0x80; 0; 0xff; 0x00; 0x01; 0x7f].

(** A reply cut off after four bytes. *)
Definition cut_off_reply : list Z := [0x83; 0; 2; 0x42].

(** ** Vocabulary of the further properties *)

(** The bytes of a text, one per character. *)
Fixpoint encode_ascii (s : string) : list Z :=
  match s with
  | EmptyString => []
  | String c s' => Z.of_N (Ascii.N_of_ascii c) :: encode_ascii s'
  end.

(** A frame whose last two bytes are the high and the low byte of the sum
    of the bytes before them. *)
Definition checksum_valid (frame : list Z) : Prop :=
  exists body hi lo,
    frame = body ++ [hi; lo]
    /\ hi = Z.shiftr (sum_bytes body) 8
    /\ lo = Z.land (sum_bytes body) 0xff.

(** A text all of whose characters have a code below 128. *)
Fixpoint ascii_only (s : string) : bool :=
  match s with
  | EmptyString => true
  | String c s' => (Ascii.N_of_ascii c <? 128)%N && ascii_only s'
  end.

(** [p] holds of [z], [z + 1], ..., [z + fuel - 1]. *)
Fixpoint all_from (fuel : nat) (z : Z) (p : Z -> bool) : bool :=
  match fuel with
  | O => true
  | S fuel' => p z && all_from fuel' (z + 1) p
  end.

(** [float(raw)] does not overflow. *)
Definition converts (raw : Z) : bool :=
  match float_of_int raw with
  | Ok _ => true
  | Raise _ => false
  end.

(** A checksum-valid reply of object 71: remote, output on, constant
    voltage, 21.0 V and 2.5 A on a 42 V / 10 A unit. *)
Definition actual_reply : list Z :=
  [0x85; 0; 71; 0x01; 0x01; 0x32; 0x00; 0x19; 0x00; 0x01; 0x19].

(** What [actual_reply] decodes to. *)
Definition actual_reply_values : gmap string value :=
  <["i" := Number 2.5]> (<["v" := Number 21]>
  (<["OTP" := Bool false]> (<["OPP" := Bool false]>
  (<["OCP" := Bool false]> (<["OVP" := Bool false]>
  (<["CV" := Bool true]> (<["CC" := Bool false]>
  (<["on" := Bool true]> (<["local" := Bool false]>
  (<["remote" := Bool true]> ∅)))))))))).

(** A session whose nominal values are still the class defaults, 0. *)
Definition fresh_session (rx : list Z) : world := World false 0 0 [] rx [].

(** A checksum-valid reply of the control object with payload 01 01. *)
Definition control_reply : list Z := [0x81; 0; 54; 0x01; 0x01; 0x00; 0xb9].

(** A checksum-valid reply of object 0 carrying the text "PS" and the
    terminating zero. *)
Definition type_reply : list Z := [0x82; 0; 0; 0x50; 0x53; 0x00; 0x01; 0x25].

(** * Properties *)

(** ** Sums, indices and slices *)

Lemma is_byte_true (x : Z) : is_byte x = true <-> byte x.
Proof. unfold is_byte, byte. rewrite andb_true_iff. lia. Qed.

Lemma is_byte_false (x : Z) : is_byte x = false <-> ~ byte x.
Proof. rewrite <- is_byte_true. destruct (is_byte x); intuition congruence. Qed.

Lemma forallb_is_byte (l : list Z) :
  Forall byte l -> forallb is_byte l = true.
Proof.
  induction 1 as [|x l Hx _ IH]; [reflexivity|].
  cbn. rewrite IH. apply is_byte_true in Hx. now rewrite Hx.
Qed.

Lemma foldl_add_shift (l : list Z) (a : Z) :
  foldl (fun cs b => cs + b) a l = a + foldl (fun cs b => cs + b) 0 l.
Proof.
  revert a. induction l as [|x l IH]; intros a; cbn; [lia|].
  rewrite (IH (a + x)), (IH (0 + x)). lia.
Qed.

Lemma sum_bytes_cons (x : Z) (l : list Z) :
  sum_bytes (x :: l) = x + sum_bytes l.
Proof. unfold sum_bytes. cbn. apply foldl_add_shift. Qed.

Lemma sum_bytes_app (l k : list Z) :
  sum_bytes (l ++ k) = sum_bytes l + sum_bytes k.
Proof.
  induction l as [|x l IH]; [reflexivity|].
  cbn [app]. rewrite !sum_bytes_cons, IH. lia.
Qed.

Lemma sum_bytes_bound (l : list Z) :
  Forall byte l -> 0 <= sum_bytes l <= 255 * len l.
Proof.
  unfold len. induction 1 as [|x l Hx _ IH]; [cbn; lia|].
  rewrite sum_bytes_cons. cbn [length]. unfold byte in Hx. lia.
Qed.

Lemma getitem_lookup (l : list Z) (i : nat) (x : Z) :
  l !! i = Some x -> getitem l (Z.of_nat i) = Ok x.
Proof.
  intros H. pose proof (lookup_lt_Some _ _ _ H) as Hlt.
  unfold getitem.
  replace (Z.of_nat i <? 0) with false by (symmetry; apply Z.ltb_ge; lia).
  replace (0 <=? Z.of_nat i) with true by (symmetry; apply Z.leb_le; lia).
  replace (Z.of_nat i <? Z.of_nat (length l)) with true
    by (symmetry; apply Z.ltb_lt; lia).
  cbn. now rewrite Nat2Z.id, H.
Qed.

Lemma getitem_from_end (l : list Z) (k : nat) (x : Z) :
  (0 < k)%nat -> (k <= length l)%nat ->
  l !! (length l - k)%nat = Some x ->
  getitem l (- Z.of_nat k) = Ok x.
Proof.
  intros Hk Hle H. unfold getitem.
  replace (- Z.of_nat k <? 0) with true by (symmetry; apply Z.ltb_lt; lia).
  replace (- Z.of_nat k + Z.of_nat (length l))
    with (Z.of_nat (length l - k)) by lia.
  replace (0 <=? Z.of_nat (length l - k)) with true
    by (symmetry; apply Z.leb_le; lia).
  replace (Z.of_nat (length l - k) <? Z.of_nat (length l)) with true
    by (symmetry; apply Z.ltb_lt; lia).
  cbn. now rewrite Nat2Z.id, H.
Qed.

(** A frame seen as its body followed by the two checksum bytes. *)
Lemma getitem_hi (body : list Z) (hi lo : Z) :
  getitem (body ++ [hi; lo]) (-2) = Ok hi.
Proof.
  apply (getitem_from_end _ 2); rewrite ?length_app; cbn [length]; try lia.
  rewrite lookup_app_r by lia.
  now replace (length body + 2 - 2 - length body)%nat with 0%nat by lia.
Qed.

Lemma getitem_lo (body : list Z) (hi lo : Z) :
  getitem (body ++ [hi; lo]) (-1) = Ok lo.
Proof.
  apply (getitem_from_end _ 1); rewrite ?length_app; cbn [length]; try lia.
  rewrite lookup_app_r by lia.
  now replace (length body + 2 - 1 - length body)%nat with 1%nat by lia.
Qed.

Lemma slice_body (body : list Z) (hi lo : Z) :
  slice (body ++ [hi; lo]) 0 (-2) = body.
Proof.
  unfold slice, clamp. rewrite length_app. cbn [length].
  replace (0 <? 0) with false by reflexivity.
  replace (-2 <? 0) with true by reflexivity.
  set (n := Z.of_nat (length body + 2)).
  replace (Z.max 0 (Z.min n 0)) with 0 by lia.
  replace (Z.max 0 (Z.min n (-2 + n)) - 0) with (Z.of_nat (length body))
    by lia.
  rewrite Nat2Z.id. change (Z.to_nat 0) with 0%nat. rewrite drop_0.
  apply take_app_length.
Qed.

Lemma getitem_0 (x : Z) (l : list Z) : getitem (x :: l) 0 = Ok x.
Proof. exact (getitem_lookup (x :: l) 0 x eq_refl). Qed.

Lemma shiftr8_land255 (cs : Z) : 256 * Z.shiftr cs 8 + Z.land cs 0xff = cs.
Proof.
  rewrite Z.shiftr_div_pow2 by lia.
  change 0xff with (Z.ones 8). rewrite Z.land_ones by lia.
  change (2 ^ 8) with 256. pose proof (Z.div_mod cs 256). lia.
Qed.

Lemma shiftr8_byte (cs : Z) : 0 <= cs < 65536 -> byte (Z.shiftr cs 8).
Proof.
  intros H. unfold byte. rewrite Z.shiftr_div_pow2 by lia.
  change (2 ^ 8) with 256.
  split; [apply Z.div_pos; lia | apply Z.div_lt_upper_bound; lia].
Qed.

Lemma land255_byte (cs : Z) : byte (Z.land cs 0xff).
Proof.
  unfold byte. change 0xff with (Z.ones 8). rewrite Z.land_ones by lia.
  change (2 ^ 8) with 256. apply Z.mod_pos_bound. lia.
Qed.

(** ** The process state under printing *)

Lemma emit_nil (w : world) : emit w [] = w.
Proof. destruct w. unfold emit. cbn. now rewrite app_nil_r. Qed.

Lemma emit_emit (w : world) (a b : list printed) :
  emit (emit w a) b = emit w (a ++ b).
Proof. unfold emit. cbn. now rewrite app_assoc. Qed.

Lemma for_each_print (fmt : string) (l : list Z) (w : world) :
  for_each l (fun b => print_int_noend fmt b) w
  = (Ok tt, emit w (map (fun b => Printed fmt [ArgInt b] false) l)).
Proof.
  revert w. induction l as [|b l IH]; intros w; cbn.
  - unfold ret. now rewrite emit_nil.
  - unfold mbind, print_int_noend, print_event. rewrite IH, emit_emit.
    reflexivity.
Qed.

(** ** The telegram that [_construct] returns *)

Lemma _construct_frame (type node obj : Z) (data : list Z) :
  0 <= type -> byte (0x30 + type) ->
  byte node -> byte obj -> Forall byte data ->
  len data <= 256 - (0x30 + type) ->
  let body := start_delimiter type data :: node :: obj :: data in
  _construct type node obj data
  = Ok (body ++ [Z.shiftr (sum_bytes body) 8; Z.land (sum_bytes body) 0xff]).
Proof.
  intros Htype Hsd Hnode Hobj Hdata Hlen body.
  assert (Hbody : Forall byte body).
  { subst body.
    constructor; [|constructor; [assumption|constructor; assumption]].
    unfold start_delimiter. destruct (0 <? len data) eqn:E; [|assumption].
    apply Z.ltb_lt in E. unfold byte in *. lia. }
  assert (Hcs : byte (Z.shiftr (sum_bytes body) 8)).
  { apply shiftr8_byte. pose proof (sum_bytes_bound body Hbody) as Hb.
    assert (len body = 3 + len data)
      by (subst body; unfold len; cbn [length]; lia).
    unfold byte in Hsd. lia. }
  unfold _construct, bytearray_append.
  apply is_byte_true in Hsd as ->. apply is_byte_true in Hnode as ->.
  apply is_byte_true in Hobj as ->. cbn [Py.bind app].
  assert (Hmid :
    (if 0 <? len data
     then Py.bind (bytearray_extend [0x30 + type; node; obj] data)
            (fun t => bytearray_iadd0 t (len data - 1))
     else Ok [0x30 + type; node; obj]) = Ok body).
  { subst body. unfold start_delimiter.
    destruct (0 <? len data) eqn:E.
    - unfold bytearray_extend. rewrite (forallb_is_byte _ Hdata).
      cbn [Py.bind app]. unfold bytearray_iadd0. rewrite getitem_0.
      cbn [Py.bind].
      assert (Hb : is_byte (0x30 + type + (len data - 1)) = true).
      { apply is_byte_true. unfold start_delimiter in Hbody.
        rewrite E in Hbody. now inversion Hbody. }
      rewrite Hb. reflexivity.
    - apply Z.ltb_ge in E. unfold len in E.
      destruct data; [reflexivity | cbn [length] in E; lia]. }
  rewrite Hmid. cbn [Py.bind].
  apply is_byte_true in Hcs as ->.
  pose proof (land255_byte (sum_bytes body)) as Hlo.
  apply is_byte_true in Hlo as ->.
  cbn [Py.bind]. now rewrite <- app_assoc.
Qed.

(** What [_check_checksum] does with a frame of at least two bytes. *)
Lemma _check_checksum_frame (body : list Z) (hi lo : Z) (w : world) :
  _check_checksum (body ++ [hi; lo]) w
  = if (hi =? Z.shiftr (sum_bytes body) 8)
       && (lo =? Z.land (sum_bytes body) 0xff)
    then (Ok true, w)
    else (Raise (SystemExit 1),
          emit w [Printed "ERROR: checksum mismatch" [] true]).
Proof.
  unfold _check_checksum, mbind, lift.
  rewrite slice_body, getitem_hi, getitem_lo. cbn [Py.bind].
  destruct (hi =? Z.shiftr (sum_bytes body) 8); cbn [negb andb];
    [destruct (lo =? Z.land (sum_bytes body) 0xff); cbn [negb]|];
    reflexivity.
Qed.

Lemma _construct_too_long (type node obj : Z) (data : list Z) :
  byte (0x30 + type) -> byte node -> byte obj -> Forall byte data ->
  256 - (0x30 + type) < len data ->
  _construct type node obj data = Raise ValueError.
Proof.
  intros Hsd Hnode Hobj Hdata Hlen.
  unfold _construct, bytearray_append.
  pose proof Hsd as Hsd'. apply is_byte_true in Hsd' as ->.
  apply is_byte_true in Hnode as ->. apply is_byte_true in Hobj as ->.
  cbn [Py.bind app].
  replace (0 <? len data) with true
    by (symmetry; apply Z.ltb_lt; unfold byte in Hsd; lia).
  unfold bytearray_extend. rewrite (forallb_is_byte _ Hdata).
  cbn [Py.bind app]. unfold bytearray_iadd0. rewrite getitem_0.
  cbn [Py.bind].
  replace (is_byte (0x30 + type + (len data - 1))) with false; [reflexivity|].
  symmetry. apply is_byte_false. unfold byte. lia.
Qed.

(** ** Telegram codec: checksum *)

(** C1, as stated, fails: with SEND and 17 data bytes the start delimiter
    0xf0 + 16 no longer fits a byte, [bytearray] raises [ValueError] and no
    telegram is produced. *)
Lemma construct_long_data_no_telegram :
  ~ (forall (type node obj : Z) (data : list Z) (w : world),
       type = PS_QUERY \/ type = PS_SEND ->
       byte node -> byte obj -> Forall byte data ->
       exists telegram,
         _construct type node obj data = Ok telegram /\
         fst (_check_checksum telegram w) = Ok true).
Proof.
  intros H.
  destruct (H PS_SEND 0 0 (replicate 17 0) (session [])) as (t & Ht & _).
  - now right.
  - unfold byte; lia.
  - unfold byte; lia.
  - apply Forall_replicate. unfold byte; lia.
  - vm_compute in Ht. discriminate Ht.
Qed.

(** C1 (amended): for type QUERY or SEND, a node and an object in
    [0,255] and data bytes, as long as the data keep the start delimiter a
    byte ([len data <= 256 - (0x30 + type)]: 16 bytes for SEND, 144 for
    QUERY), [_construct] returns a telegram whose last two bytes are the
    big-endian 16-bit sum of the bytes before them, and [_check_checksum]
    returns [True] on it without printing or exiting; with more data
    [_construct] raises [ValueError] and there is no telegram. *)
Theorem construct_passes_check_checksum
  (type node obj : Z) (data : list Z) (w : world) :
  type = PS_QUERY \/ type = PS_SEND ->
  byte node -> byte obj -> Forall byte data ->
  if len data <=? 256 - (0x30 + type) then
    exists body hi lo,
      _construct type node obj data = Ok (body ++ [hi; lo]) /\
      byte hi /\ byte lo /\
      256 * hi + lo = sum_bytes body mod 65536 /\
      _check_checksum (body ++ [hi; lo]) w = (Ok true, w)
  else _construct type node obj data = Raise ValueError.
Proof.
  intros Htype Hnode Hobj Hdata.
  assert (H0 : 0 <= type) by (unfold PS_QUERY, PS_SEND in Htype; lia).
  assert (Hsd : byte (0x30 + type))
    by (unfold byte, PS_QUERY, PS_SEND in *; lia).
  destruct (len data <=? 256 - (0x30 + type)) eqn:Hlen.
  - apply Z.leb_le in Hlen.
    pose proof (_construct_frame type node obj data
                  H0 Hsd Hnode Hobj Hdata Hlen) as Hc.
    cbn zeta in Hc.
    set (body := start_delimiter type data :: node :: obj :: data) in *.
    assert (Hbody : Forall byte body).
    { subst body.
      constructor; [|constructor; [assumption|constructor; assumption]].
      unfold start_delimiter. destruct (0 <? len data) eqn:E; [|assumption].
      apply Z.ltb_lt in E. unfold byte in *. lia. }
    assert (Hsum : 0 <= sum_bytes body < 65536).
    { pose proof (sum_bytes_bound body Hbody) as Hb.
      assert (len body = 3 + len data)
        by (subst body; unfold len; cbn [length]; lia).
      lia. }
    exists body, (Z.shiftr (sum_bytes body) 8), (Z.land (sum_bytes body) 0xff).
    split; [exact Hc|].
    split; [now apply shiftr8_byte|].
    split; [apply land255_byte|].
    split.
    + rewrite shiftr8_land255. symmetry. apply Z.mod_small. exact Hsum.
    + rewrite _check_checksum_frame, !Z.eqb_refl. reflexivity.
  - apply Z.leb_gt in Hlen. now apply _construct_too_long.
Qed.

Lemma construct_passes_check_checksum_witness :
  (PS_SEND = PS_QUERY \/ PS_SEND = PS_SEND) /\
  byte 0 /\ byte 54 /\ Forall byte [0x10; 0x10] /\
  exists body hi lo,
    _construct PS_SEND 0 54 [0x10; 0x10] = Ok (body ++ [hi; lo]) /\
    byte hi /\ byte lo /\
    256 * hi + lo = sum_bytes body mod 65536 /\
    _check_checksum (body ++ [hi; lo]) (session []) = (Ok true, session []).
Proof.
  assert (H1 : PS_SEND = PS_QUERY \/ PS_SEND = PS_SEND) by now right.
  assert (H2 : byte 0) by (unfold byte; lia).
  assert (H3 : byte 54) by (unfold byte; lia).
  assert (H4 : Forall byte [0x10; 0x10])
    by (repeat constructor; unfold byte; lia).
  repeat (split; [assumption|]).
  exact (construct_passes_check_checksum PS_SEND 0 54 [0x10; 0x10]
           (session []) H1 H2 H3 H4).
Defined.

(** C4, as stated, fails: on the five-byte frame 00 00 00 00 01, whose
    trailing bytes differ from the sum 0, [_check_checksum] does not return
    [False]; it raises [SystemExit]. *)
Lemma check_checksum_mismatch_not_false :
  ~ (forall (body : list Z) (hi lo : Z) (w : world),
       Forall byte (body ++ [hi; lo]) ->
       5 <= len (body ++ [hi; lo]) ->
       256 * hi + lo <> sum_bytes body mod 65536 ->
       fst (_check_checksum (body ++ [hi; lo]) w) = Ok false).
Proof.
  intros H.
  assert (Hf : fst (_check_checksum ([0; 0; 0] ++ [0; 1]) (session []))
               = Ok false).
  { apply H.
    - repeat constructor; unfold byte; lia.
    - vm_compute; discriminate.
    - vm_compute; discriminate. }
  vm_compute in Hf. discriminate Hf.
Qed.

(** C4 (amended): for every received frame of at least 5 bytes whose
    trailing two bytes (read big-endian) differ from the 16-bit sum of all
    bytes except the last two, [_check_checksum] prints
    "ERROR: checksum mismatch" and ends the program with [sys.exit(1)];
    and on no input at all does it return [False]. *)
Theorem check_checksum_mismatch_exits
  (body : list Z) (hi lo : Z) (w : world) :
  Forall byte (body ++ [hi; lo]) ->
  5 <= len (body ++ [hi; lo]) ->
  256 * hi + lo <> sum_bytes body mod 65536 ->
  _check_checksum (body ++ [hi; lo]) w
  = (Raise (SystemExit 1),
     emit w [Printed "ERROR: checksum mismatch" [] true])
  /\ forall ans w', fst (_check_checksum ans w') <> Ok false.
Proof.
  intros Hbytes _ Hne. split.
  - rewrite _check_checksum_frame.
    destruct (hi =? Z.shiftr (sum_bytes body) 8) eqn:Ehi; [|reflexivity].
    destruct (lo =? Z.land (sum_bytes body) 0xff) eqn:Elo; [|reflexivity].
    exfalso. apply Hne.
    apply Z.eqb_eq in Ehi, Elo. subst hi lo.
    rewrite shiftr8_land255.
    apply Forall_app in Hbytes as [Hbody Htail].
    pose proof (sum_bytes_bound body Hbody) as Hb.
    inversion Htail as [|? ? Hhi _]; subst.
    unfold byte in Hhi. rewrite Z.shiftr_div_pow2 in Hhi by lia.
    change (2 ^ 8) with 256 in Hhi.
    symmetry. apply Z.mod_small. split; [lia|].
    pose proof (Z.div_mod (sum_bytes body) 256).
    pose proof (Z.mod_pos_bound (sum_bytes body) 256). lia.
  - intros ans w'. unfold _check_checksum, mbind, lift.
    destruct (getitem ans (-2)) as [h|e]; cbn [Py.bind]; [|discriminate].
    destruct (negb (h =? _)); [cbn; discriminate|].
    destruct (getitem ans (-1)) as [l|e]; cbn [Py.bind]; [|discriminate].
    destruct (negb (l =? _)); cbn; discriminate.
Qed.

Lemma check_checksum_mismatch_exits_witness :
  Forall byte ([0; 0; 0] ++ [0; 1]) /\
  5 <= len ([0; 0; 0] ++ [0; 1]) /\
  256 * 0 + 1 <> sum_bytes [0; 0; 0] mod 65536 /\
  _check_checksum ([0; 0; 0] ++ [0; 1]) (session [])
  = (Raise (SystemExit 1),
     emit (session []) [Printed "ERROR: checksum mismatch" [] true]).
Proof.
  assert (H1 : Forall byte ([0; 0; 0] ++ [0; 1]))
    by (repeat constructor; unfold byte; lia).
  assert (H2 : 5 <= len ([0; 0; 0] ++ [0; 1])) by (vm_compute; discriminate).
  assert (H3 : 256 * 0 + 1 <> sum_bytes [0; 0; 0] mod 65536)
    by (vm_compute; discriminate).
  repeat (split; [assumption|]).
  exact (proj1 (check_checksum_mismatch_exits [0; 0; 0] 0 1 (session [])
                  H1 H2 H3)).
Defined.

(** ** Object transfer: one exchange *)

Lemma _transfer_steps (type node obj : Z) (data : list Z) (w : world) :
  _transfer type node obj data w
  = match _construct type 0 obj data with
    | Raise e => (Raise e, w)
    | Ok telegram =>
        let ans := take 100 (incoming w) in
        let w1 := exchanged telegram w in
        if len ans <? 5 then
          (Raise (SystemExit 1),
           emit w1 [Printed "ERROR: short answer (%d bytes received)"
                      [ArgInt (len ans)] true])
        else
          match _check_checksum ans w1 with
          | (Ok _, w2) =>
              match _check_error ans w2 with
              | (Ok _, w3) => (Ok ans, w3)
              | (Raise e, w3) => (Raise e, w3)
              end
          | (Raise e, w2) => (Raise e, w2)
          end
    end.
Proof.
  unfold _transfer, lift. unfold mbind at 1.
  destruct (_construct type 0 obj data) as [telegram|e]; [|reflexivity].
  destruct w as [v u i wr inc out].
  unfold exchanged, verbose_dump, dump.
  cbn [verbose u_nom i_nom written incoming stdout]. cbn zeta.
  destruct v.
  - unfold mbind, get_verbose, ser_write, ser_read, print, print_noend,
      print_int, print_event, sys_exit, lift, ret.
    cbn [verbose]. rewrite for_each_print.
    cbn [emit verbose u_nom i_nom written incoming stdout].
    rewrite for_each_print.
    destruct (len (take 100 inc) <? 5);
      unfold emit; cbn [verbose u_nom i_nom written incoming stdout];
      repeat (progress (rewrite <- ?app_assoc; cbn [app])); reflexivity.
  - unfold mbind, get_verbose, ser_write, ser_read, print, print_noend,
      print_int, print_event, sys_exit, lift, ret.
    cbn [verbose u_nom i_nom written incoming stdout].
    destruct (len (take 100 inc) <? 5);
      unfold emit; cbn [verbose u_nom i_nom written incoming stdout];
      rewrite ?app_nil_r; reflexivity.
Qed.

Lemma _check_checksum_emits (ans : list Z) (w : world) :
  exists out, snd (_check_checksum ans w) = emit w out.
Proof.
  unfold _check_checksum, mbind, lift.
  destruct (getitem ans (-2)) as [hi|e]; cbn [Py.bind];
    [|exists []; cbn; now rewrite emit_nil].
  destruct (negb (hi =? _)).
  { eexists. reflexivity. }
  destruct (getitem ans (-1)) as [lo|e]; cbn [Py.bind];
    [|exists []; cbn; now rewrite emit_nil].
  destruct (negb (lo =? _)).
  - eexists. reflexivity.
  - exists []. cbn. now rewrite emit_nil.
Qed.

Lemma _check_error_emits (ans : list Z) (w : world) :
  exists out, snd (_check_error ans w) = emit w out.
Proof.
  unfold _check_error, mbind, lift.
  destruct (getitem ans 2) as [a2|e];
    [|exists []; cbn; now rewrite emit_nil].
  destruct (negb (a2 =? 255)); [exists []; cbn; now rewrite emit_nil|].
  destruct (getitem ans 3) as [a3|e];
    [|exists []; cbn; now rewrite emit_nil].
  destruct (a3 =? 0); [exists []; cbn; now rewrite emit_nil|].
  match goal with
  | |- context [match ?c w with _ => _ end] =>
      assert (Hc : exists out, c w = (Ok tt, emit w out))
  end.
  { repeat (destruct (a3 =? _); [eexists; reflexivity|]).
    exists []. unfold ret. now rewrite emit_nil. }
  destruct Hc as [out1 ->].
  unfold print_noend, print, print_event, sys_exit, lift.
  rewrite for_each_print. cbn [snd]. rewrite !emit_emit.
  eexists. reflexivity.
Qed.

(** C5: when the read returns 4 or fewer bytes, [_transfer] reports the
    short answer (the message with the byte count, then [sys.exit(1)])
    whatever those bytes are; the state it leaves is the one right after
    the read plus that one message, so neither [_check_checksum] nor
    [_check_error] has run. *)
Theorem transfer_short_answer
  (type node obj : Z) (data telegram : list Z) (w : world) :
  _construct type 0 obj data = Ok telegram ->
  (length (incoming w) <= 4)%nat ->
  _transfer type node obj data w
  = (Raise (SystemExit 1),
     emit (exchanged telegram w)
       [Printed "ERROR: short answer (%d bytes received)"
          [ArgInt (len (incoming w))] true]).
Proof.
  intros Hc Hlen. rewrite _transfer_steps, Hc. cbn zeta.
  rewrite take_ge by lia.
  replace (len (incoming w) <? 5) with true
    by (symmetry; apply Z.ltb_lt; unfold len; lia).
  reflexivity.
Qed.

Lemma transfer_short_answer_witness :
  _construct PS_QUERY 0 2 [] = Ok [0x70; 0; 2; 0; 0x72] /\
  (length (incoming (session cut_off_reply)) <= 4)%nat /\
  _transfer PS_QUERY 0 2 [] (session cut_off_reply)
  = (Raise (SystemExit 1),
     emit (exchanged [0x70; 0; 2; 0; 0x72] (session cut_off_reply))
       [Printed "ERROR: short answer (%d bytes received)"
          [ArgInt (len (incoming (session cut_off_reply)))] true]).
Proof.
  assert (H1 : _construct PS_QUERY 0 2 [] = Ok [0x70; 0; 2; 0; 0x72])
    by reflexivity.
  assert (H2 : (length (incoming (session cut_off_reply)) <= 4)%nat)
    by (cbn; lia).
  repeat (split; [assumption|]).
  exact (transfer_short_answer PS_QUERY 0 2 [] [0x70; 0; 2; 0; 0x72]
           (session cut_off_reply) H1 H2).
Defined.

(** C10: the [node] argument of [_transfer] has no effect: two calls that
    differ only in it behave identically, and the telegram handed to
    [ser_dev.write] is [_construct(type, 0, obj, data)]. *)
Theorem transfer_ignores_node
  (type node node' obj : Z) (data : list Z) (w : world) :
  _transfer type node obj data w = _transfer type node' obj data w
  /\ written (snd (_transfer type node obj data w))
     = match _construct type 0 obj data with
       | Ok telegram => written w ++ [telegram]
       | Raise _ => written w
       end.
Proof.
  split; [reflexivity|].
  rewrite _transfer_steps.
  destruct (_construct type 0 obj data) as [telegram|e]; [|reflexivity].
  cbn zeta. destruct (len (take 100 (incoming w)) <? 5); [reflexivity|].
  destruct (_check_checksum_emits (take 100 (incoming w))
              (exchanged telegram w)) as [o1 H1].
  destruct (_check_checksum (take 100 (incoming w)) (exchanged telegram w))
    as [[r1|e1] w2]; cbn [snd] in *; subst w2; [|reflexivity].
  destruct (_check_error_emits (take 100 (incoming w))
              (emit (exchanged telegram w) o1)) as [o2 H2].
  destruct (_check_error (take 100 (incoming w))
              (emit (exchanged telegram w) o1))
    as [[r2|e2] w3]; cbn [snd] in *; subst w3; reflexivity.
Qed.

(** ** Telegram codec: device errors *)

Lemma getitem_2 (b0 b1 b2 : Z) (rest : list Z) :
  getitem (b0 :: b1 :: b2 :: rest) 2 = Ok b2.
Proof. exact (getitem_lookup (b0 :: b1 :: b2 :: rest) 2 b2 eq_refl). Qed.

Lemma getitem_3 (b0 b1 b2 b3 : Z) (rest : list Z) :
  getitem (b0 :: b1 :: b2 :: b3 :: rest) 3 = Ok b3.
Proof. exact (getitem_lookup (b0 :: b1 :: b2 :: b3 :: rest) 3 b3 eq_refl). Qed.

(** C6: [_check_error] on a frame with marker 0xFF and code 0x30 reports
    "upper limit exceeded" (that message, the dump of the answer, then
    [sys.exit(1)]); with marker 0xFF and code 0x00 it returns [False]
    (acknowledge, no error); and with any other marker it returns [False]
    (normal data).  In the last two cases nothing is printed. *)
Theorem check_error_classifies
  (b0 b1 b2 b3 : Z) (rest : list Z) (w : world) :
  b2 <> 0xff ->
  _check_error (b0 :: b1 :: 0xff :: 0x30 :: rest) w
  = (Raise (SystemExit 1),
     emit w (Printed "ERROR: upper limit exceeded" [] true
             :: dump "answer: " (b0 :: b1 :: 0xff :: 0x30 :: rest)))
  /\ _check_error (b0 :: b1 :: 0xff :: 0x00 :: rest) w = (Ok false, w)
  /\ _check_error (b0 :: b1 :: b2 :: b3 :: rest) w = (Ok false, w).
Proof.
  intros Hb2. repeat split.
  - unfold _check_error, mbind, lift. rewrite getitem_2, getitem_3.
    cbn [negb Z.eqb Pos.eqb].
    unfold print_noend, print, print_event, sys_exit, lift.
    rewrite for_each_print, !emit_emit. reflexivity.
  - unfold _check_error, mbind, lift. rewrite getitem_2, getitem_3.
    reflexivity.
  - unfold _check_error, mbind, lift. rewrite getitem_2.
    apply Z.eqb_neq in Hb2. rewrite Hb2. reflexivity.
Qed.

Lemma check_error_classifies_witness :
  54 <> 0xff /\
  _check_error [0x80; 0; 0xff; 0x30; 0x01; 0xaf] (session [])
  = (Raise (SystemExit 1),
     emit (session [])
       (Printed "ERROR: upper limit exceeded" [] true
        :: dump "answer: " [0x80; 0; 0xff; 0x30; 0x01; 0xaf]))
  /\ _check_error [0x80; 0; 0xff; 0x00; 0x01; 0xaf] (session [])
     = (Ok false, session [])
  /\ _check_error [0x80; 0; 54; 0x00; 0x01; 0xaf] (session [])
     = (Ok false, session []).
Proof.
  assert (H : 54 <> 0xff) by discriminate.
  split; [assumption|].
  exact (check_error_classifies 0x80 0 54 0x00 [0x01; 0xaf] (session []) H).
Defined.

(** ** Integers on the wire *)

Lemma getitem_4 (b0 b1 b2 b3 b4 : Z) (rest : list Z) :
  getitem (b0 :: b1 :: b2 :: b3 :: b4 :: rest) 4 = Ok b4.
Proof.
  exact (getitem_lookup (b0 :: b1 :: b2 :: b3 :: b4 :: rest) 4 b4 eq_refl).
Qed.

(** C7: for [v] in [0, 65535] the two bytes that [_set_integer] sends,
    [v >> 8] and [v & 0xff], are bytes, and an answer carrying them at
    positions 3 and 4 is read back by [(ans[3] << 8) + ans[4]] as [v]. *)
Theorem integer_roundtrip (v h0 h1 h2 : Z) (tail : list Z) :
  0 <= v <= 65535 ->
  integer_data (Int v) = Ok [Z.shiftr v 8; Z.land v 0xff]
  /\ byte (Z.shiftr v 8) /\ byte (Z.land v 0xff)
  /\ answer_integer (h0 :: h1 :: h2 :: Z.shiftr v 8 :: Z.land v 0xff :: tail)
     = Ok v.
Proof.
  intros Hv. split; [reflexivity|].
  split; [apply shiftr8_byte; lia|].
  split; [apply land255_byte|].
  unfold answer_integer. rewrite getitem_3, getitem_4. cbn [Py.bind].
  f_equal. rewrite Z.shiftl_mul_pow2 by lia. change (2 ^ 8) with 256.
  pose proof (shiftr8_land255 v). lia.
Qed.

Lemma integer_roundtrip_witness :
  0 <= 6095 <= 65535 /\
  integer_data (Int 6095) = Ok [Z.shiftr 6095 8; Z.land 6095 0xff]
  /\ byte (Z.shiftr 6095 8) /\ byte (Z.land 6095 0xff)
  /\ answer_integer [0x81; 0; 50; Z.shiftr 6095 8; Z.land 6095 0xff; 0x02; 0x99]
     = Ok 6095.
Proof.
  assert (H : 0 <= 6095 <= 65535) by lia.
  split; [assumption|].
  exact (integer_roundtrip 6095 0x81 0 50 [0x02; 0x99] H).
Defined.

(** ** Floats on the wire *)

(** C9, as stated, fails: the bytes 41 2a 00 00 are not 10.6640625. *)
Lemma unpack_412a0000_is_not_10_6640625 :
  struct_unpack_f [0x41; 0x2a; 0x00; 0x00] <> Ok 10.6640625%float.
Proof.
  intros H.
  assert (E : Prim2SF 10.625 = Prim2SF 10.6640625).
  { vm_compute in H. congruence. }
  vm_compute in E. discriminate E.
Qed.

(** C9 (amended): the bytes 41 2a 00 00, read as a big-endian IEEE-754
    single, are exactly 10.625 (sign 0, exponent 130, fraction 0x2a0000:
    1.328125 * 8); [_get_float] returns that value for a checksum-valid
    answer carrying them. *)
Theorem unpack_412a0000_is_10_625 :
  struct_unpack_f [0x41; 0x2a; 0x00; 0x00] = Ok 10.625%float
  /\ fst (_get_float 2 (session [0x83; 0; 2; 0x41; 0x2a; 0; 0; 0x00; 0xf0]))
     = Ok 10.625%float.
Proof. split; vm_compute; reflexivity. Qed.

(** ** Scaled setters *)

Lemma set_voltage_scaled (u : num) (raw : Z) (w : world) :
  unscaled u (u_nom w) = Ok raw ->
  set_voltage u w = _set_integer 50 (Int raw) w.
Proof.
  intros H. unfold set_voltage, mbind, get_u_nom, lift. now rewrite H.
Qed.

Lemma set_current_scaled (i : num) (raw : Z) (w : world) :
  unscaled i (i_nom w) = Ok raw ->
  set_current i w = _set_integer 51 (Int raw) w.
Proof.
  intros H. unfold set_current, mbind, get_i_nom, lift. now rewrite H.
Qed.

(** C2 on the code: with [u_nom] = 42.0 and the value 10, the raw integer
    is [round(10 * 25600 / 42)] = 6095 = 0x17cf, and [set_voltage] does
    send 17 cf for object 50; but [set_OVP_threshold] (object 38) and
    [set_OCP_threshold] (object 39) send the value itself, 00 0a, with no
    scaling by the nominal value. *)
Theorem threshold_setters_send_unscaled :
  unscaled (Int 10) (u_nom (session acknowledge)) = Ok 6095
  /\ written (snd (set_voltage (Int 10) (session acknowledge)))
     = [[0xf1; 0; 50; 0x17; 0xcf; 0x02; 0x09]]
  /\ written (snd (set_OVP_threshold (Int 10) (session acknowledge)))
     = [[0xf1; 0; 38; 0x00; 0x0a; 0x01; 0x21]]
  /\ written (snd (set_OCP_threshold (Int 10) (session acknowledge)))
     = [[0xf1; 0; 39; 0x00; 0x0a; 0x01; 0x22]].
Proof. repeat split; vm_compute; reflexivity. Qed.

(** ** Control object *)

(** C3 on the code: the frame 80 00 ff 00 01 7f is an acknowledge (marker
    0xFF at index 2, code 0x00 at index 3, valid checksum) and
    [_check_error] accepts it, yet [set_remote] and [set_output_on] return
    [False] on it, because [_set_control] looks at the payload [ans[3:-2]],
    that is at the frame's bytes 3 and 4; and they return [True] on
    81 00 36 ff 00 01 b6, whose marker is not 0xFF. *)
Theorem set_control_misreads_acknowledge :
  _check_checksum acknowledge (session []) = (Ok true, session [])
  /\ _check_error acknowledge (session []) = (Ok false, session [])
  /\ fst (set_remote true (session acknowledge)) = Ok false
  /\ fst (set_remote false (session acknowledge)) = Ok false
  /\ fst (set_output_on true (session acknowledge)) = Ok false
  /\ fst (set_output_on false (session acknowledge)) = Ok false
  /\ fst (set_local true (session acknowledge)) = Ok false
  /\ fst (set_output_off true (session acknowledge)) = Ok false
  /\ fst (set_remote true (session [0x81; 0; 54; 0xff; 0x00; 0x01; 0xb6]))
     = Ok true.
Proof. repeat split; vm_compute; reflexivity. Qed.

(** ** Actual values and setpoints *)

(** C8, as stated, fails: on the payload 00 00 00 00 00 00 the dictionary
    of [get_actual] has the key "local" and that of [get_setpoints] has
    not, so the two decoders do not produce the same field set. *)
Lemma setpoints_lack_local_and_CV :
  ~ (forall (nom_u nom_i : float) (ans : list Z),
       decode_setpoints nom_u nom_i ans = decode_actual nom_u nom_i ans).
Proof.
  intros H. specialize (H 42%float 10%float [0; 0; 0; 0; 0; 0]).
  assert (E : forall r : result (gmap string value),
            decode_setpoints 42 10 [0; 0; 0; 0; 0; 0] = r ->
            match r with Ok d => d !! "local" | Raise _ => None end = None).
  { intros r <-. vm_compute. reflexivity. }
  specialize (E _ H). vm_compute in E. discriminate E.
Qed.

(** C8 (amended): on every payload and for all nominal values, the
    dictionary of [get_setpoints] is the dictionary of [get_actual] without
    the keys "local" and "CV": the fields remote, on, CC, OVP, OCP, OPP,
    OTP, v and i are decoded from the same bits and bytes with the same
    scaling, and both fail on the same payloads with the same exception;
    [get_actual] alone adds local = not remote and CV = not CC. *)
Theorem setpoints_mirror_actual (nom_u nom_i : float) (ans : list Z) :
  match decode_actual nom_u nom_i ans with
  | Ok actual =>
      decode_setpoints nom_u nom_i ans
      = Ok (delete "CV" (delete "local" actual))
      /\ actual !! "local" = negated <$> actual !! "remote"
      /\ actual !! "CV" = negated <$> actual !! "CC"
  | Raise e => decode_setpoints nom_u nom_i ans = Raise e
  end.
Proof.
  unfold decode_actual, decode_setpoints.
  destruct (getitem ans 0) as [a0|e]; cbn [Py.bind]; [|reflexivity].
  destruct (getitem ans 1) as [a1|e]; cbn [Py.bind]; [|reflexivity].
  destruct (getitem ans 2) as [a2|e]; cbn [Py.bind]; [|reflexivity].
  destruct (getitem ans 3) as [a3|e]; cbn [Py.bind]; [|reflexivity].
  destruct (scaled nom_u _) as [v|e]; cbn [Py.bind]; [|reflexivity].
  destruct (getitem ans 4) as [a4|e]; cbn [Py.bind]; [|reflexivity].
  destruct (getitem ans 5) as [a5|e]; cbn [Py.bind]; [|reflexivity].
  destruct (scaled nom_i _) as [i|e]; cbn [Py.bind]; [|reflexivity].
  split; [f_equal; vm_compute; reflexivity|].
  split; vm_compute; reflexivity.
Qed.

(** * Further properties of the code *)

(** ** Slices of a frame *)

Lemma slice_middle (pre mid post : list Z) :
  post <> [] ->
  slice (pre ++ mid ++ post) (len pre) (- len post) = mid.
Proof.
  intros Hpost. unfold slice, clamp, len. rewrite !length_app.
  assert (0 < length post)%nat by (destruct post; [congruence | cbn; lia]).
  replace (Z.of_nat (length pre) <? 0) with false
    by (symmetry; apply Z.ltb_ge; lia).
  replace (- Z.of_nat (length post) <? 0) with true
    by (symmetry; apply Z.ltb_lt; lia).
  set (n := Z.of_nat (length pre + (length mid + length post))).
  replace (Z.max 0 (Z.min n (Z.of_nat (length pre))))
    with (Z.of_nat (length pre)) by lia.
  replace (Z.max 0 (Z.min n (- Z.of_nat (length post) + n))
           - Z.of_nat (length pre))
    with (Z.of_nat (length mid)) by lia.
  rewrite !Nat2Z.id, drop_app_length. apply take_app_length.
Qed.

Lemma slice_payload (h0 h1 h2 : Z) (data : list Z) (hi lo : Z) :
  slice (h0 :: h1 :: h2 :: data ++ [hi; lo]) 3 (-2) = data.
Proof. now apply (slice_middle [h0; h1; h2] data [hi; lo]). Qed.

Lemma slice_text (h0 h1 h2 : Z) (data : list Z) (t hi lo : Z) :
  slice (h0 :: h1 :: h2 :: data ++ [t; hi; lo]) 3 (-3) = data.
Proof. now apply (slice_middle [h0; h1; h2] data [t; hi; lo]). Qed.

Lemma length_slice_payload (ans : list Z) :
  length (slice ans 3 (-2)) = (length ans - 5)%nat.
Proof.
  unfold slice, clamp. rewrite length_take, length_drop.
  replace (3 <? 0) with false by reflexivity.
  replace (-2 <? 0) with true by reflexivity. lia.
Qed.

Lemma frame_split (l : list Z) :
  (2 <= length l)%nat -> exists body hi lo, l = body ++ [hi; lo].
Proof.
  intros H. exists (take (length l - 2) l).
  pose proof (take_drop (length l - 2) l) as E.
  destruct (drop (length l - 2) l) as [|hi [|lo [|x t]]] eqn:D.
  - apply (f_equal length) in D. rewrite length_drop in D. cbn in D. lia.
  - apply (f_equal length) in D. rewrite length_drop in D. cbn in D. lia.
  - exists hi, lo. now rewrite E.
  - apply (f_equal length) in D. rewrite length_drop in D. cbn in D. lia.
Qed.

(** ** [_check_error] on a frame of at least four bytes *)

Lemma _check_error_passes (b0 b1 b2 b3 : Z) (rest : list Z) (w : world) :
  b2 <> 0xff \/ b3 = 0 ->
  _check_error (b0 :: b1 :: b2 :: b3 :: rest) w = (Ok false, w).
Proof.
  intros H. unfold _check_error, mbind, lift. rewrite getitem_2, getitem_3.
  destruct (b2 =? 255) eqn:E2; [|reflexivity]. cbn [negb].
  destruct H as [H| ->]; [apply Z.eqb_eq in E2; contradiction|reflexivity].
Qed.

Lemma _check_error_exits (b0 b1 b3 : Z) (rest : list Z) (w : world) :
  b3 <> 0 ->
  exists msg,
    (length msg <= 1)%nat /\
    _check_error (b0 :: b1 :: 0xff :: b3 :: rest) w
    = (Raise (SystemExit 1),
       emit w (msg ++ dump "answer: " (b0 :: b1 :: 0xff :: b3 :: rest))).
Proof.
  intros H3. unfold _check_error, mbind, lift. rewrite getitem_2, getitem_3.
  cbn [negb Z.eqb Pos.eqb]. apply Z.eqb_neq in H3. rewrite H3.
  match goal with
  | |- context [match ?c w with _ => _ end] =>
      assert (Hc : exists msg, (length msg <= 1)%nat
                               /\ c w = (Ok tt, emit w msg))
  end.
  { repeat match goal with
           | |- context [if b3 =? ?k then _ else _] =>
               destruct (b3 =? k);
               [eexists; split; [|reflexivity]; cbn; lia|]
           end.
    exists []. split; [cbn; lia|]. unfold ret. now rewrite emit_nil. }
  destruct Hc as (msg & Hlen & ->). exists msg. split; [exact Hlen|].
  unfold print_noend, print, print_event, sys_exit, lift.
  rewrite for_each_print, !emit_emit. reflexivity.
Qed.

(** ** [_check_checksum]: short frames and corrupted frames *)

(** X5: a frame of fewer than two bytes has no checksum bytes to compare:
    [_check_checksum] raises [IndexError] on it and prints nothing. *)
Theorem check_checksum_too_short (ans : list Z) (w : world) :
  (length ans < 2)%nat ->
  _check_checksum ans w = (Raise IndexError, w).
Proof.
  intros H. destruct ans as [|x [|y t]]; [reflexivity | reflexivity |].
  cbn [length] in H. lia.
Qed.

Lemma check_checksum_too_short_witness :
  (length [0x70] < 2)%nat
  /\ _check_checksum [0x70] (session []) = (Raise IndexError, session []).
Proof.
  assert (H : (length [0x70] < 2)%nat) by (cbn; lia).
  split; [assumption|].
  exact (check_checksum_too_short [0x70] (session []) H).
Defined.

(** X4: on a frame that [_check_checksum] accepts, replacing any one byte
    before the checksum, or either checksum byte, by a different value
    makes [_check_checksum] end the program with the mismatch message. *)
Theorem check_checksum_detects_change
  (pre post : list Z) (x y hi lo c : Z) (w : world) :
  _check_checksum ((pre ++ x :: post) ++ [hi; lo]) w = (Ok true, w) ->
  (x <> y ->
   _check_checksum ((pre ++ y :: post) ++ [hi; lo]) w
   = (Raise (SystemExit 1),
      emit w [Printed "ERROR: checksum mismatch" [] true]))
  /\ (c <> hi ->
      _check_checksum ((pre ++ x :: post) ++ [c; lo]) w
      = (Raise (SystemExit 1),
         emit w [Printed "ERROR: checksum mismatch" [] true]))
  /\ (c <> lo ->
      _check_checksum ((pre ++ x :: post) ++ [hi; c]) w
      = (Raise (SystemExit 1),
         emit w [Printed "ERROR: checksum mismatch" [] true])).
Proof.
  rewrite !_check_checksum_frame.
  destruct (hi =? Z.shiftr (sum_bytes (pre ++ x :: post)) 8) eqn:Ehi;
    [|discriminate].
  destruct (lo =? Z.land (sum_bytes (pre ++ x :: post)) 0xff) eqn:Elo;
    [|discriminate].
  intros _. apply Z.eqb_eq in Ehi, Elo.
  split; [|split].
  - intros Hxy.
    destruct ((hi =? _) && (lo =? _)) eqn:E; [|reflexivity].
    exfalso. apply andb_true_iff in E as [E1 E2].
    apply Z.eqb_eq in E1, E2.
    pose proof (shiftr8_land255 (sum_bytes (pre ++ x :: post))) as A.
    pose proof (shiftr8_land255 (sum_bytes (pre ++ y :: post))) as B.
    rewrite <- Ehi, <- Elo in A. rewrite <- E1, <- E2 in B.
    rewrite !sum_bytes_app, !sum_bytes_cons in A, B. lia.
  - intros Hc.
    destruct (c =? _) eqn:E; [|reflexivity].
    apply Z.eqb_eq in E. congruence.
  - intros Hc.
    destruct (c =? _) eqn:E; [|reflexivity].
    apply Z.eqb_eq in E. congruence.
Qed.

Lemma check_checksum_detects_change_witness :
  _check_checksum (([0x80; 0] ++ 0xff :: [0]) ++ [0x01; 0x7f]) (session [])
  = (Ok true, session [])
  /\ _check_checksum (([0x80; 0] ++ 0xfe :: [0]) ++ [0x01; 0x7f]) (session [])
     = (Raise (SystemExit 1),
        emit (session []) [Printed "ERROR: checksum mismatch" [] true]).
Proof.
  assert (H : _check_checksum (([0x80; 0] ++ 0xff :: [0]) ++ [0x01; 0x7f])
                (session []) = (Ok true, session [])) by reflexivity.
  assert (N : 0xff <> 0xfe) by discriminate.
  split; [assumption|].
  exact (proj1 (check_checksum_detects_change [0x80; 0] [0] 0xff 0xfe
                  0x01 0x7f 0 (session []) H) N).
Defined.

(** ** [_check_error]: every non-zero code ends the program *)

(** X3: with the marker 0xFF and any code other than 0x00, known or not,
    [_check_error] prints at most one "ERROR: ..." line, dumps the answer
    and ends the program with status 1; and whatever the input, it never
    returns [True]. *)
Theorem check_error_nonzero_code_exits
  (b0 b1 b3 : Z) (rest : list Z) (w : world) :
  b3 <> 0 ->
  (exists msg,
     (length msg <= 1)%nat /\
     _check_error (b0 :: b1 :: 0xff :: b3 :: rest) w
     = (Raise (SystemExit 1),
        emit w (msg ++ dump "answer: " (b0 :: b1 :: 0xff :: b3 :: rest))))
  /\ forall ans w', fst (_check_error ans w') <> Ok true.
Proof.
  intros H3. split; [now apply _check_error_exits|].
  intros ans w'. unfold _check_error, mbind, lift.
  destruct (getitem ans 2) as [a2|e]; [|discriminate].
  destruct (negb (a2 =? 255)); [discriminate|].
  destruct (getitem ans 3) as [a3|e]; [|discriminate].
  destruct (a3 =? 0); [discriminate|].
  match goal with
  | |- context [match ?c w' with _ => _ end] =>
      assert (Hc : exists out, c w' = (Ok tt, emit w' out))
  end.
  { repeat match goal with
           | |- context [if a3 =? ?k then _ else _] =>
               destruct (a3 =? k); [eexists; reflexivity|]
           end.
    exists []. unfold ret. now rewrite emit_nil. }
  destruct Hc as [out ->].
  unfold print_noend, print, print_event, sys_exit, lift.
  rewrite for_each_print. cbn. discriminate.
Qed.

Lemma check_error_nonzero_code_exits_witness :
  0x42 <> 0 /\
  exists msg,
    (length msg <= 1)%nat /\
    _check_error [0x80; 0; 0xff; 0x42; 0x01; 0xc1] (session [])
    = (Raise (SystemExit 1),
       emit (session [])
         (msg ++ dump "answer: " [0x80; 0; 0xff; 0x42; 0x01; 0xc1])).
Proof.
  assert (H : 0x42 <> 0) by discriminate.
  split; [assumption|].
  exact (proj1 (check_error_nonzero_code_exits 0x80 0 0x42 [0x01; 0xc1]
                  (session []) H)).
Defined.

(** ** [_transfer]: the successful exchange and the possible outcomes *)

Lemma _transfer_accepts
  (type node obj : Z) (data telegram : list Z)
  (b0 b1 b2 b3 : Z) (rest : list Z) (w : world) :
  _construct type 0 obj data = Ok telegram ->
  take 100 (incoming w) = b0 :: b1 :: b2 :: b3 :: rest ->
  (1 <= length rest)%nat ->
  checksum_valid (b0 :: b1 :: b2 :: b3 :: rest) ->
  b2 <> 0xff \/ b3 = 0 ->
  _transfer type node obj data w
  = (Ok (b0 :: b1 :: b2 :: b3 :: rest), exchanged telegram w).
Proof.
  intros Hc Hin Hlen (body & hi & lo & Hf & -> & ->) Herr.
  rewrite _transfer_steps, Hc. cbn zeta. rewrite Hin.
  replace (len (b0 :: b1 :: b2 :: b3 :: rest) <? 5) with false
    by (symmetry; apply Z.ltb_ge; unfold len; cbn [length]; lia).
  rewrite Hf, _check_checksum_frame, !Z.eqb_refl. cbn [andb].
  rewrite <- Hf, (_check_error_passes _ _ _ _ _ _ Herr). reflexivity.
Qed.

(** X1: when the telegram can be built and the device's answer is at least
    five and at most 100 bytes long, checksum-valid, and not an error
    report (marker other than 0xFF, or code 0x00), [_transfer] returns the
    whole answer, header and checksum included, after writing the telegram
    once and emptying the receive buffer. *)
Theorem transfer_returns_valid_answer
  (type node obj : Z) (data telegram : list Z)
  (b0 b1 b2 b3 : Z) (rest : list Z) (w : world) :
  _construct type 0 obj data = Ok telegram ->
  incoming w = b0 :: b1 :: b2 :: b3 :: rest ->
  (1 <= length rest <= 96)%nat ->
  checksum_valid (incoming w) ->
  b2 <> 0xff \/ b3 = 0 ->
  _transfer type node obj data w = (Ok (incoming w), exchanged telegram w)
  /\ written (exchanged telegram w) = written w ++ [telegram]
  /\ incoming (exchanged telegram w) = [].
Proof.
  intros Hc Hin Hlen Hv Herr.
  assert (Htake : take 100 (incoming w) = incoming w)
    by (apply take_ge; rewrite Hin; cbn [length]; lia).
  rewrite Hin in Htake at 2.
  split; [|split; [reflexivity|]].
  - rewrite Hin in Hv.
    rewrite (_transfer_accepts type node obj data telegram b0 b1 b2 b3 rest w
               Hc Htake (proj1 Hlen) Hv Herr).
    now rewrite Hin.
  - unfold exchanged. cbn [incoming]. apply drop_ge.
    rewrite Hin. cbn [length]. lia.
Qed.

Lemma transfer_returns_valid_answer_witness :
  _construct PS_QUERY 0 54 [] = Ok [0x70; 0; 54; 0x00; 0xa6] /\
  incoming (session control_reply) = 0x81 :: 0 :: 54 :: 0x01 :: [0x01; 0x00; 0xb9] /\
  (1 <= length [0x01; 0x00; 0xb9] <= 96)%nat /\
  checksum_valid (incoming (session control_reply)) /\
  (54 <> 0xff \/ 0x01 = 0) /\
  _transfer PS_QUERY 0 54 [] (session control_reply)
  = (Ok (incoming (session control_reply)),
     exchanged [0x70; 0; 54; 0x00; 0xa6] (session control_reply)).
Proof.
  assert (H1 : _construct PS_QUERY 0 54 [] = Ok [0x70; 0; 54; 0x00; 0xa6])
    by reflexivity.
  assert (H2 : incoming (session control_reply)
               = 0x81 :: 0 :: 54 :: 0x01 :: [0x01; 0x00; 0xb9])
    by reflexivity.
  assert (H3 : (1 <= length [0x01; 0x00; 0xb9] <= 96)%nat) by (cbn; lia).
  assert (H4 : checksum_valid (incoming (session control_reply))).
  { exists [0x81; 0; 54; 0x01; 0x01], 0x00, 0xb9. repeat split. }
  assert (H5 : 54 <> 0xff \/ 0x01 = 0) by (left; discriminate).
  repeat (split; [assumption|]).
  exact (proj1 (transfer_returns_valid_answer PS_QUERY 0 54 []
                  [0x70; 0; 54; 0x00; 0xa6] 0x81 0 54 0x01
                  [0x01; 0x00; 0xb9] (session control_reply)
                  H1 H2 H3 H4 H5)).
Defined.

Lemma _transfer_cases (type node obj : Z) (data : list Z) (w : world) :
  match _transfer type node obj data w with
  | (Ok ans, w') =>
      ans = take 100 (incoming w)
      /\ 5 <= len ans <= 100
      /\ checksum_valid ans
      /\ (ans !! 2%nat <> Some 0xff \/ ans !! 3%nat = Some 0)
      /\ exists telegram,
           _construct type 0 obj data = Ok telegram
           /\ w' = exchanged telegram w
  | (Raise e, w') =>
      (_construct type 0 obj data = Raise e /\ w' = w)
      \/ (e = SystemExit 1
          /\ exists telegram,
               _construct type 0 obj data = Ok telegram
               /\ written w' = written w ++ [telegram])
  end.
Proof.
  rewrite _transfer_steps.
  destruct (_construct type 0 obj data) as [telegram|e]; [|now left].
  cbn zeta.
  assert (Hle : len (take 100 (incoming w)) <= 100)
    by (unfold len; rewrite length_take; lia).
  remember (take 100 (incoming w)) as ans eqn:Hans.
  destruct (len ans <? 5) eqn:Hshort.
  { right. split; [reflexivity|]. now exists telegram. }
  apply Z.ltb_ge in Hshort.
  destruct ans as [|b0 [|b1 [|b2 [|b3 [|b4 rest]]]]];
    try (unfold len in Hshort; cbn [length] in Hshort; lia).
  destruct (frame_split (b0 :: b1 :: b2 :: b3 :: b4 :: rest))
    as (body & hi & lo & Hf); [cbn [length]; lia|].
  assert (Hck : forall w1,
            _check_checksum (b0 :: b1 :: b2 :: b3 :: b4 :: rest) w1
            = if (hi =? Z.shiftr (sum_bytes body) 8)
                 && (lo =? Z.land (sum_bytes body) 0xff)
              then (Ok true, w1)
              else (Raise (SystemExit 1),
                    emit w1 [Printed "ERROR: checksum mismatch" [] true]))
    by (intros w1; rewrite Hf; apply _check_checksum_frame).
  rewrite Hck.
  destruct ((hi =? _) && (lo =? _)) eqn:Hsum.
  2:{ right. split; [reflexivity|]. now exists telegram. }
  apply andb_true_iff in Hsum as [Hhi Hlo]. apply Z.eqb_eq in Hhi, Hlo.
  destruct (Z.eq_dec b2 0xff) as [->|H2].
  - destruct (Z.eq_dec b3 0) as [->|H3].
    + rewrite _check_error_passes by now right.
      repeat split; try assumption; try lia.
      * now exists body, hi, lo.
      * now right.
      * now exists telegram.
    + destruct (_check_error_exits b0 b1 b3 (b4 :: rest)
                  (exchanged telegram w) H3) as (msg & _ & ->).
      right. split; [reflexivity|]. now exists telegram.
  - rewrite _check_error_passes by now left.
    repeat split; try assumption; try lia.
    + now exists body, hi, lo.
    + left. cbn. congruence.
    + now exists telegram.
Qed.

(** X2: [_transfer] has three kinds of outcome and no other.  It returns
    an answer, which is then the first (at most 100) received bytes, five
    or more of them, checksum-valid and not an error report; or
    [_construct] raised, and then that exception comes out with nothing
    written, read or printed; or it ends the program with status 1 after
    writing the telegram.  In particular it never raises [IndexError]. *)
Theorem transfer_outcomes (type node obj : Z) (data : list Z) (w : world) :
  match _transfer type node obj data w with
  | (Ok ans, w') =>
      ans = take 100 (incoming w)
      /\ 5 <= len ans <= 100
      /\ checksum_valid ans
      /\ (ans !! 2%nat <> Some 0xff \/ ans !! 3%nat = Some 0)
      /\ exists telegram,
           _construct type 0 obj data = Ok telegram
           /\ w' = exchanged telegram w
  | (Raise e, w') =>
      e <> IndexError
      /\ ((_construct type 0 obj data = Raise e /\ w' = w)
          \/ (e = SystemExit 1
              /\ exists telegram,
                   _construct type 0 obj data = Ok telegram
                   /\ written w' = written w ++ [telegram]))
  end.
Proof.
  pose proof (_transfer_cases type node obj data w) as H.
  destruct (_transfer type node obj data w) as [[ans|e] w']; [exact H|].
  split; [|exact H].
  destruct H as [[Hc _]|[-> _]]; [|discriminate].
  intros ->. unfold _construct, bytearray_append, bytearray_extend,
    bytearray_iadd0 in Hc.
  destruct (is_byte (48 + type)); [|discriminate Hc].
  destruct (is_byte 0); [|discriminate Hc].
  destruct (is_byte obj); [|discriminate Hc].
  cbn [Py.bind app] in Hc.
  destruct (0 <? len data).
  - destruct (forallb is_byte data); [|discriminate Hc].
    cbn [Py.bind app] in Hc. rewrite getitem_0 in Hc. cbn [Py.bind] in Hc.
    destruct (is_byte (48 + type + (len data - 1))); [|discriminate Hc].
    cbn [Py.bind] in Hc.
    destruct (is_byte _); [|discriminate Hc]. cbn [Py.bind] in Hc.
    destruct (is_byte _); discriminate Hc.
  - cbn [Py.bind] in Hc.
    destruct (is_byte _); [|discriminate Hc]. cbn [Py.bind] in Hc.
    destruct (is_byte _); discriminate Hc.
Qed.

(** ** [_construct]: what a telegram carries *)

Lemma _construct_raises (type node obj : Z) (data : list Z) (e : exn) :
  _construct type node obj data = Raise e -> e = ValueError.
Proof.
  unfold _construct, bytearray_append, bytearray_extend, bytearray_iadd0.
  intros Hc.
  destruct (is_byte (48 + type)); [|cbn in Hc; congruence].
  destruct (is_byte node); [|cbn in Hc; congruence].
  destruct (is_byte obj); [|cbn in Hc; congruence].
  cbn [Py.bind app] in Hc.
  destruct (0 <? len data).
  - destruct (forallb is_byte data); [|cbn in Hc; congruence].
    cbn [Py.bind app] in Hc. rewrite getitem_0 in Hc. cbn [Py.bind] in Hc.
    destruct (is_byte (48 + type + (len data - 1)));
      [|cbn in Hc; congruence].
    cbn [Py.bind] in Hc.
    destruct (is_byte _); [|cbn in Hc; congruence]. cbn [Py.bind] in Hc.
    destruct (is_byte _); cbn in Hc; congruence.
  - cbn [Py.bind] in Hc.
    destruct (is_byte _); [|cbn in Hc; congruence]. cbn [Py.bind] in Hc.
    destruct (is_byte _); cbn in Hc; congruence.
Qed.

Lemma getitem_1 (b0 b1 : Z) (rest : list Z) :
  getitem (b0 :: b1 :: rest) 1 = Ok b1.
Proof. exact (getitem_lookup (b0 :: b1 :: rest) 1 b1 eq_refl). Qed.

(** X6: a telegram built by [_construct] gives its fields back: it is five
    bytes longer than the data, byte 0 is the start delimiter with the
    length in it, byte 1 the node, byte 2 the object, and the slice
    [[3:-2]] that the accessors take as payload is the data. *)
Theorem construct_fields_roundtrip
  (type node obj : Z) (data : list Z) :
  type = PS_QUERY \/ type = PS_SEND ->
  byte node -> byte obj -> Forall byte data ->
  len data <= 256 - (0x30 + type) ->
  exists telegram,
    _construct type node obj data = Ok telegram
    /\ len telegram = len data + 5
    /\ getitem telegram 0 = Ok (0x30 + type + Z.max 0 (len data - 1))
    /\ getitem telegram 1 = Ok node
    /\ getitem telegram 2 = Ok obj
    /\ slice telegram 3 (-2) = data.
Proof.
  intros Htype Hnode Hobj Hdata Hlen.
  assert (H0 : 0 <= type) by (unfold PS_QUERY, PS_SEND in Htype; lia).
  assert (Hsd : byte (0x30 + type))
    by (unfold byte, PS_QUERY, PS_SEND in *; lia).
  pose proof (_construct_frame type node obj data
                H0 Hsd Hnode Hobj Hdata Hlen) as Hc.
  cbn zeta in Hc. cbn [app] in Hc.
  eexists. split; [exact Hc|].
  split; [unfold len; cbn [length]; rewrite length_app; cbn [length]; lia|].
  split.
  { rewrite getitem_0. f_equal. unfold start_delimiter.
    destruct (0 <? len data) eqn:E;
      [apply Z.ltb_lt in E | apply Z.ltb_ge in E]; unfold len in *; lia. }
  split; [apply getitem_1|].
  split; [apply getitem_2 | apply slice_payload].
Qed.

Lemma construct_fields_roundtrip_witness :
  (PS_SEND = PS_QUERY \/ PS_SEND = PS_SEND) /\
  byte 0 /\ byte 50 /\ Forall byte [0x17; 0xcf] /\
  len [0x17; 0xcf] <= 256 - (0x30 + PS_SEND) /\
  exists telegram,
    _construct PS_SEND 0 50 [0x17; 0xcf] = Ok telegram
    /\ len telegram = len [0x17; 0xcf] + 5
    /\ getitem telegram 0
       = Ok (0x30 + PS_SEND + Z.max 0 (len [0x17; 0xcf] - 1))
    /\ getitem telegram 1 = Ok 0
    /\ getitem telegram 2 = Ok 50
    /\ slice telegram 3 (-2) = [0x17; 0xcf].
Proof.
  assert (H1 : PS_SEND = PS_QUERY \/ PS_SEND = PS_SEND) by now right.
  assert (H2 : byte 0) by (unfold byte; lia).
  assert (H3 : byte 50) by (unfold byte; lia).
  assert (H4 : Forall byte [0x17; 0xcf])
    by (repeat constructor; unfold byte; lia).
  assert (H5 : len [0x17; 0xcf] <= 256 - (0x30 + PS_SEND))
    by (vm_compute; discriminate).
  repeat (split; [assumption|]).
  exact (construct_fields_roundtrip PS_SEND 0 50 [0x17; 0xcf] H1 H2 H3 H4 H5).
Defined.

(** ** Integer objects *)

Lemma shiftr8_not_byte (z : Z) : ~ 0 <= z <= 65535 -> ~ byte (Z.shiftr z 8).
Proof.
  intros Hz. unfold byte. rewrite Z.shiftr_div_pow2 by lia.
  change (2 ^ 8) with 256. intros [Hlo Hhi].
  pose proof (Z.div_mod z 256). pose proof (Z.mod_pos_bound z 256). lia.
Qed.

Lemma _transfer_written
  (type node obj : Z) (data telegram : list Z) (w : world) :
  _construct type 0 obj data = Ok telegram ->
  written (snd (_transfer type node obj data w)) = written w ++ [telegram].
Proof.
  intros Hc. pose proof (_transfer_cases type node obj data w) as H.
  destruct (_transfer type node obj data w) as [[ans|e] w']; cbn [snd].
  - destruct H as (_ & _ & _ & _ & t & Ht & ->).
    assert (t = telegram) as -> by congruence. reflexivity.
  - destruct H as [[Hr _]|[_ (t & Ht & Hw)]]; [congruence|].
    assert (t = telegram) as -> by congruence. exact Hw.
Qed.

(** X7: [_set_integer] puts a raw value on the wire only if it fits 16
    bits.  For an object number that is a byte: a float raises [TypeError]
    and an integer outside [0, 65535] raises [ValueError], both before
    anything is written, read or printed; an integer inside the range is
    sent as the one telegram [_construct(SEND, 0, obj, [z >> 8, z & 0xff])]. *)
Theorem set_integer_range (obj z : Z) (f : float) (w : world) :
  byte obj ->
  _set_integer obj (Float f) w = (Raise TypeError, w)
  /\ if (0 <=? z) && (z <=? 65535) then
       exists telegram,
         _construct PS_SEND 0 obj [Z.shiftr z 8; Z.land z 0xff] = Ok telegram
         /\ written (snd (_set_integer obj (Int z) w))
            = written w ++ [telegram]
     else _set_integer obj (Int z) w = (Raise ValueError, w).
Proof.
  intros Hobj. split; [reflexivity|].
  destruct ((0 <=? z) && (z <=? 65535)) eqn:Hz.
  - apply andb_true_iff in Hz as [Hz1 Hz2].
    apply Z.leb_le in Hz1, Hz2.
    assert (Hd : Forall byte [Z.shiftr z 8; Z.land z 0xff]).
    { constructor; [apply shiftr8_byte; lia|].
      constructor; [apply land255_byte | constructor]. }
    pose proof (_construct_frame PS_SEND 0 obj _ ltac:(discriminate)
                  ltac:(unfold byte, PS_SEND; lia)
                  ltac:(unfold byte; lia) Hobj Hd
                  ltac:(vm_compute; discriminate)) as Hc.
    cbn zeta in Hc. eexists. split; [exact Hc|].
    unfold _set_integer, mbind, lift. cbn [integer_data].
    pose proof (_transfer_written PS_SEND 0 obj _ _ w Hc) as Hw.
    destruct (_transfer PS_SEND 0 obj _ w) as [[ans|e] w'];
      cbn [snd] in *; exact Hw.
  - assert (Hn : ~ 0 <= z <= 65535).
    { intros [H1 H2]. apply Z.leb_le in H1, H2. rewrite H1, H2 in Hz.
      discriminate Hz. }
    apply shiftr8_not_byte, is_byte_false in Hn.
    unfold _set_integer, mbind, lift. cbn [integer_data].
    rewrite _transfer_steps.
    unfold _construct, bytearray_append, bytearray_extend.
    apply is_byte_true in Hobj as ->. cbn [forallb]. rewrite Hn.
    reflexivity.
Qed.

Lemma set_integer_range_witness :
  byte 50 /\
  _set_integer 50 (Float 12.5) (session acknowledge)
  = (Raise TypeError, session acknowledge)
  /\ _set_integer 50 (Int 65536) (session acknowledge)
     = (Raise ValueError, session acknowledge).
Proof.
  assert (H : byte 50) by (unfold byte; lia).
  split; [assumption|].
  exact (set_integer_range 50 65536 12.5 (session acknowledge) H).
Defined.

(** X9: [_get_integer] on received bytes never raises [IndexError]: a
    value it returns lies in [0, 65535], and otherwise it ends the program
    with status 1 or, for an object number that is not a byte, raises
    [ValueError]. *)
Theorem get_integer_range (obj : Z) (w : world) :
  Forall byte (incoming w) ->
  match _get_integer obj w with
  | (Ok v, _) => 0 <= v <= 65535
  | (Raise e, _) => e = SystemExit 1 \/ (e = ValueError /\ ~ byte obj)
  end.
Proof.
  intros Hbytes. unfold _get_integer, mbind, lift.
  pose proof (_transfer_cases PS_QUERY 0 obj [] w) as H.
  destruct (_transfer PS_QUERY 0 obj [] w) as [[ans|e] w'].
  - destruct H as (Hans & Hlen & _).
    assert (Hb : Forall byte ans)
      by (rewrite Hans; now apply Forall_take).
    destruct ans as [|b0 [|b1 [|b2 [|b3 [|b4 rest]]]]];
      try (unfold len in Hlen; cbn [length] in Hlen; lia).
    unfold answer_integer. rewrite getitem_3, getitem_4. cbn [Py.bind].
    repeat match goal with
           | H : Forall byte (_ :: _) |- _ => inversion_clear H
           end.
    rewrite Z.shiftl_mul_pow2 by lia. change (2 ^ 8) with 256.
    unfold byte in *. lia.
  - destruct H as [[Hc _]|[-> _]]; [|now left].
    right. split; [exact (_construct_raises _ _ _ _ _ Hc)|].
    intros Hobj.
    pose proof (_construct_frame PS_QUERY 0 obj [] ltac:(discriminate)
                  ltac:(unfold byte, PS_QUERY; lia)
                  ltac:(unfold byte; lia) Hobj (Forall_nil_2 _)
                  ltac:(vm_compute; discriminate)) as Hok.
    cbn zeta in Hok. congruence.
Qed.

Lemma get_integer_range_witness :
  Forall byte (incoming (session control_reply))
  /\ match _get_integer 54 (session control_reply) with
     | (Ok v, _) => 0 <= v <= 65535
     | (Raise e, _) => e = SystemExit 1 \/ (e = ValueError /\ ~ byte 54)
     end.
Proof.
  assert (H : Forall byte (incoming (session control_reply)))
    by (repeat constructor; unfold byte; lia).
  split; [assumption|].
  exact (get_integer_range 54 (session control_reply) H).
Defined.

(** ** Float objects *)

(** X10: [_get_float] decodes an accepted answer only if it is exactly
    nine bytes long (four payload bytes); on an accepted answer of any
    other length [struct.unpack] raises its error. *)
Theorem get_float_needs_four_bytes
  (obj : Z) (ans : list Z) (w w' : world) :
  _transfer PS_QUERY 0 obj [] w = (Ok ans, w') ->
  snd (_get_float obj w) = w'
  /\ (fst (_get_float obj w) = Raise StructError <-> length ans <> 9%nat).
Proof.
  intros H. unfold _get_float, mbind, lift. rewrite H. cbn [fst snd].
  split; [reflexivity|].
  pose proof (length_slice_payload ans) as Hl.
  destruct (slice ans 3 (-2)) as [|p0 [|p1 [|p2 [|p3 [|p4 t]]]]];
    cbn [length] in Hl; cbn [struct_unpack_f];
    (split; [intros E; try discriminate E; lia | intros E; try reflexivity; lia]).
Qed.

Lemma get_float_needs_four_bytes_witness :
  _transfer PS_QUERY 0 54 [] (session control_reply)
  = (Ok control_reply, exchanged [0x70; 0; 54; 0x00; 0xa6] (session control_reply))
  /\ snd (_get_float 54 (session control_reply))
     = exchanged [0x70; 0; 54; 0x00; 0xa6] (session control_reply)
  /\ (fst (_get_float 54 (session control_reply)) = Raise StructError
      <-> length control_reply <> 9%nat).
Proof.
  assert (H : _transfer PS_QUERY 0 54 [] (session control_reply)
              = (Ok control_reply,
                 exchanged [0x70; 0; 54; 0x00; 0xa6] (session control_reply)))
    by reflexivity.
  split; [assumption|].
  exact (get_float_needs_four_bytes 54 control_reply (session control_reply)
           _ H).
Defined.

(** ** Scaled setters without a nominal value *)

(** X8: while the nominal value is zero (the class default, or a device
    that reports 0.0), [set_voltage] and [set_current] raise
    [ZeroDivisionError] for every value that converts to a float, and
    nothing is written, read or printed. *)
Theorem setters_zero_nominal (x : num) (f : float) (w : world) :
  to_float x = Ok f ->
  (u_nom w =? 0)%float = true ->
  (i_nom w =? 0)%float = true ->
  set_voltage x w = (Raise ZeroDivisionError, w)
  /\ set_current x w = (Raise ZeroDivisionError, w).
Proof.
  intros Hx Hu Hi.
  unfold set_voltage, set_current, mbind, get_u_nom, get_i_nom, lift,
    unscaled, float_mul, float_truediv.
  rewrite Hx. cbn [Py.bind to_float]. rewrite Hu, Hi. split; reflexivity.
Qed.

Lemma setters_zero_nominal_witness :
  to_float (Int 12) = Ok 12%float /\
  (u_nom (fresh_session acknowledge) =? 0)%float = true /\
  (i_nom (fresh_session acknowledge) =? 0)%float = true /\
  set_voltage (Int 12) (fresh_session acknowledge)
  = (Raise ZeroDivisionError, fresh_session acknowledge)
  /\ set_current (Int 12) (fresh_session acknowledge)
     = (Raise ZeroDivisionError, fresh_session acknowledge).
Proof.
  assert (H1 : to_float (Int 12) = Ok 12%float) by reflexivity.
  assert (H2 : (u_nom (fresh_session acknowledge) =? 0)%float = true)
    by reflexivity.
  assert (H3 : (i_nom (fresh_session acknowledge) =? 0)%float = true)
    by reflexivity.
  repeat (split; [assumption|]).
  exact (setters_zero_nominal (Int 12) 12 (fresh_session acknowledge)
           H1 H2 H3).
Defined.

(** ** String objects *)

Lemma decode_encode_ascii (s : string) :
  ascii_only s = true -> decode_ascii (encode_ascii s) = Ok s.
Proof.
  induction s as [|c s IH]; [reflexivity|].
  cbn [ascii_only encode_ascii decode_ascii]. intros H.
  apply andb_true_iff in H as [Hc Hs]. apply N.ltb_lt in Hc.
  replace (Z.of_N (Ascii.N_of_ascii c) <? 128) with true
    by (symmetry; apply Z.ltb_lt; lia).
  rewrite (IH Hs). cbn [Py.bind].
  now rewrite N2Z.id, Ascii.ascii_N_embedding.
Qed.

(** X11: [_get_string] returns the text of an accepted answer without its
    last payload byte (the terminator), whatever that byte is: if the
    payload is the bytes of an ASCII text [s] followed by one more byte,
    the result is [s]. *)
Theorem get_string_roundtrip
  (obj : Z) (s : string) (h0 h1 h2 t hi lo : Z) (w w' : world) :
  ascii_only s = true ->
  _transfer PS_QUERY 0 obj [] w
  = (Ok (h0 :: h1 :: h2 :: encode_ascii s ++ [t; hi; lo]), w') ->
  _get_string obj w = (Ok s, w').
Proof.
  intros Hs H. unfold _get_string, mbind, lift. rewrite H.
  now rewrite slice_text, decode_encode_ascii.
Qed.

Lemma get_string_roundtrip_witness :
  ascii_only "PS" = true /\
  _transfer PS_QUERY 0 0 [] (session type_reply)
  = (Ok (0x82 :: 0 :: 0 :: encode_ascii "PS" ++ [0x00; 0x01; 0x25]),
     exchanged [0x70; 0; 0; 0x00; 0x70] (session type_reply)) /\
  _get_string 0 (session type_reply)
  = (Ok "PS"%string, exchanged [0x70; 0; 0; 0x00; 0x70] (session type_reply)).
Proof.
  assert (H1 : ascii_only "PS" = true) by reflexivity.
  assert (H2 : _transfer PS_QUERY 0 0 [] (session type_reply)
               = (Ok (0x82 :: 0 :: 0 :: encode_ascii "PS" ++ [0x00; 0x01; 0x25]),
                  exchanged [0x70; 0; 0; 0x00; 0x70] (session type_reply)))
    by reflexivity.
  repeat (split; [assumption|]).
  exact (get_string_roundtrip 0 "PS" 0x82 0 0 0x00 0x01 0x25
           (session type_reply) _ H1 H2).
Defined.


(** ** Control object: what is sent and what counts as success *)

Lemma _set_control_written (mask data : Z) (telegram : list Z) (w : world) :
  _construct PS_SEND 0 54 [mask; data] = Ok telegram ->
  written (snd (_set_control mask data w)) = written w ++ [telegram].
Proof.
  intros Hc. pose proof (_transfer_written PS_SEND 0 54 _ _ w Hc) as Hw.
  unfold _set_control, _set_binary, mbind, lift, ret.
  destruct (_transfer PS_SEND 0 54 [mask; data] w) as [[ans|e] w'];
    cbn [snd] in *; exact Hw.
Qed.

(** X17: whatever the state, [set_remote] sends exactly one telegram, for
    object 54 with mask 0x10 and data 0x10 or 0x00, and [set_output_on]
    one with mask 0x01 and data 0x01 or 0x00: each write names a single
    bit of the control word. *)
Theorem control_setters_telegrams (b : bool) (w : world) :
  written (snd (set_remote b w))
  = written w ++ [[0xf1; 0; 54; 0x10; if b then 0x10 else 0x00;
                   0x01; if b then 0x47 else 0x37]]
  /\ written (snd (set_output_on b w))
     = written w ++ [[0xf1; 0; 54; 0x01; if b then 0x01 else 0x00;
                      0x01; if b then 0x29 else 0x28]].
Proof.
  split; destruct b; unfold set_remote, set_output_on;
    now apply _set_control_written.
Qed.

Lemma slice_after_header (h0 h1 h2 : Z) (l : list Z) :
  slice (h0 :: h1 :: h2 :: l) 3 (-2) = take (length l - 2) l.
Proof.
  unfold slice, clamp. cbn [length].
  replace (3 <? 0) with false by reflexivity.
  replace (-2 <? 0) with true by reflexivity.
  set (n := Z.of_nat (S (S (S (length l))))).
  replace (Z.max 0 (Z.min n 3)) with 3 by lia.
  replace (Z.to_nat (Z.max 0 (Z.min n (-2 + n)) - 3))
    with (length l - 2)%nat by lia.
  reflexivity.
Qed.

Lemma _set_control_result
  (mask data : Z) (ans : list Z) (w w' : world) :
  _transfer PS_SEND 0 54 [mask; data] w = (Ok ans, w') ->
  _set_control mask data w
  = (match slice ans 3 (-2) with
     | [] => Raise IndexError
     | a0 :: t =>
         if a0 =? 0xff then
           match t with
           | [] => Raise IndexError
           | a1 :: _ => Ok (a1 =? 0x00)
           end
         else Ok false
     end, w').
Proof.
  intros H. unfold _set_control, _set_binary, mbind, lift, ret. rewrite H.
  destruct (slice ans 3 (-2)) as [|a0 [|a1 t]]; [reflexivity| |].
  - rewrite getitem_0. cbn [Py.bind]. now destruct (a0 =? 255).
  - rewrite getitem_0, getitem_1. cbn [Py.bind]. now destruct (a0 =? 255).
Qed.

(** X16: on an accepted answer, [_set_control] (hence [set_remote],
    [set_output_on] and their wrappers) returns [True] exactly when the
    answer has at least seven bytes with 0xFF at index 3 and 0x00 at index
    4; it raises [IndexError] exactly when the answer has five bytes, or
    six with 0xFF at index 3; and it never returns [True] on an answer
    whose marker, at index 2, is 0xFF. *)
Theorem set_control_success
  (mask data : Z) (ans : list Z) (w w' : world) :
  _transfer PS_SEND 0 54 [mask; data] w = (Ok ans, w') ->
  (fst (_set_control mask data w) = Ok true
   <-> (7 <= length ans)%nat
       /\ ans !! 3%nat = Some 0xff /\ ans !! 4%nat = Some 0x00)
  /\ (fst (_set_control mask data w) = Raise IndexError
      <-> length ans = 5%nat
          \/ (length ans = 6%nat /\ ans !! 3%nat = Some 0xff))
  /\ (ans !! 2%nat = Some 0xff -> fst (_set_control mask data w) <> Ok true).
Proof.
  intros H. rewrite (_set_control_result _ _ _ _ _ H). cbn [fst].
  pose proof (_transfer_cases PS_SEND 0 54 [mask; data] w) as Hc.
  rewrite H in Hc. destruct Hc as (_ & Hlen & Hv & Herr & _).
  destruct ans as [|b0 [|b1 [|b2 [|b3 [|b4 rest]]]]];
    try (unfold len in Hlen; cbn [length] in Hlen; lia).
  clear Hv H. rewrite slice_after_header.
  destruct rest as [|r1 [|r2 rest]]; cbn [length Nat.sub take lookup].
  - split; [split; [discriminate|intros (Hl & _); cbn in Hl; lia]|].
    split; [split; [now left|reflexivity]|discriminate].
  - destruct (b3 =? 255) eqn:E3.
    + apply Z.eqb_eq in E3 as ->.
      split; [split; [discriminate|intros (Hl & _); cbn in Hl; lia]|].
      split; [split; [now right|reflexivity]|discriminate].
    + apply Z.eqb_neq in E3.
      split; [split; [discriminate|intros (Hl & _); cbn in Hl; lia]|].
      split; [|discriminate].
      split; [discriminate|].
      intros [Hl|[_ Hl]]; [cbn in Hl; lia | cbn in Hl; congruence].
  - cbn [lookup list_lookup] in *.
    destruct (b3 =? 255) eqn:E3.
    + apply Z.eqb_eq in E3 as ->.
      split.
      { split.
        - intros E. injection E as E. apply Z.eqb_eq in E as ->.
          repeat split. cbn. lia.
        - intros (_ & _ & E). injection E as ->. reflexivity. }
      split.
      { split; [discriminate|].
        intros [Hl|[Hl _]]; cbn in Hl; lia. }
      intros E2. injection E2 as ->.
      destruct Herr as [Herr|Herr]; [now contradiction Herr|].
      cbn in Herr. discriminate Herr.
    + apply Z.eqb_neq in E3.
      split.
      { split; [discriminate|]. intros (_ & E & _). cbn in E. congruence. }
      split; [|discriminate].
      split; [discriminate|].
      intros [Hl|[Hl _]]; cbn in Hl; lia.
Qed.


Lemma set_control_success_witness :
  _transfer PS_SEND 0 54 [0x10; 0x10] (session acknowledge)
  = (Ok acknowledge,
     exchanged [0xf1; 0; 54; 0x10; 0x10; 0x01; 0x47] (session acknowledge))
  /\ acknowledge !! 2%nat = Some 0xff
  /\ fst (_set_control 0x10 0x10 (session acknowledge)) <> Ok true.
Proof.
  assert (H : _transfer PS_SEND 0 54 [0x10; 0x10] (session acknowledge)
              = (Ok acknowledge,
                 exchanged [0xf1; 0; 54; 0x10; 0x10; 0x01; 0x47]
                   (session acknowledge))) by reflexivity.
  assert (M : acknowledge !! 2%nat = Some 0xff) by reflexivity.
  repeat (split; [assumption|]).
  exact (proj2 (proj2 (set_control_success 0x10 0x10 acknowledge
                         (session acknowledge) _ H)) M).
Defined.

Lemma truthy_b2z (b : bool) : truthy (Z.b2z b) = b.
Proof. now destruct b. Qed.

Lemma land_pow2 (a k : Z) :
  0 <= k -> Z.land a (2 ^ k) = Z.b2z (Z.testbit a k) * 2 ^ k.
Proof.
  intros Hk. apply Z.bits_inj'. intros n Hn.
  rewrite Z.land_spec, Z.pow2_bits_eqb by assumption.
  rewrite <- Z.shiftl_mul_pow2 by assumption.
  rewrite Z.shiftl_spec by assumption.
  destruct (Z.eqb_spec k n) as [->|Hne].
  - rewrite Z.sub_diag, andb_true_r.
    now destruct (Z.testbit a n).
  - rewrite andb_false_r. symmetry.
    destruct (Z.testbit a k); cbn [Z.b2z].
    + destruct (Z.lt_ge_cases (n - k) 0) as [Hlt|Hge];
        [now apply Z.testbit_neg_r|].
      change 1 with (2 ^ 0). apply Z.pow2_bits_false. lia.
    + apply Z.bits_0.
Qed.

Lemma truthy_land_bit (a k : Z) :
  0 <= k -> truthy (Z.land a (2 ^ k)) = Z.testbit a k.
Proof.
  intros Hk. rewrite land_pow2 by assumption. unfold truthy.
  destruct (Z.testbit a k); cbn [Z.b2z].
  - rewrite Z.mul_1_l. apply negb_true_iff, Z.eqb_neq.
    pose proof (Z.pow_pos_nonneg 2 k). lia.
  - reflexivity.
Qed.

Lemma truthy_land_two_bits (a j k : Z) :
  0 <= j -> 0 <= k ->
  truthy (Z.land a (Z.lor (2 ^ j) (2 ^ k)))
  = Z.testbit a j || Z.testbit a k.
Proof.
  intros Hj Hk. rewrite Z.land_lor_distr_r.
  rewrite <- (truthy_land_bit a j), <- (truthy_land_bit a k) by assumption.
  unfold truthy.
  destruct (Z.eqb_spec (Z.lor (Z.land a (2 ^ j)) (Z.land a (2 ^ k))) 0)
    as [E|E].
  - apply Z.lor_eq_0_iff in E as [-> ->]. reflexivity.
  - destruct (Z.eqb_spec (Z.land a (2 ^ j)) 0) as [Ej|Ej];
      destruct (Z.eqb_spec (Z.land a (2 ^ k)) 0) as [Ek|Ek];
      try reflexivity.
    exfalso. apply E. apply Z.lor_eq_0_iff. now split.
Qed.

(** X13: [get_control] reads an accepted payload of two or more bytes as
    the dictionary with exactly the keys "output_on" (bit 0 of payload
    byte 1) and "remote" (bit 0 of payload byte 0), so [get_remote] and
    [get_output_on] find their key; on a shorter payload all three raise
    [IndexError]. *)
Theorem get_control_decodes (payload : list Z) (w w' : world) :
  _get_binary 54 w = (Ok payload, w') ->
  match payload with
  | a0 :: a1 :: _ =>
      get_control w
      = (Ok (<["remote" := Bool (Z.testbit a0 0)]>
               (<["output_on" := Bool (Z.testbit a1 0)]> ∅)), w')
      /\ get_remote w = (Ok (Bool (Z.testbit a0 0)), w')
      /\ get_output_on w = (Ok (Bool (Z.testbit a1 0)), w')
  | _ =>
      get_control w = (Raise IndexError, w')
      /\ get_remote w = (Raise IndexError, w')
      /\ get_output_on w = (Raise IndexError, w')
  end.
Proof.
  intros H. unfold get_remote, get_output_on, get_control, mbind, lift, ret.
  rewrite H.
  destruct payload as [|a0 [|a1 t]]; [repeat split | repeat split |].
  rewrite getitem_0, getitem_1.
  change 1 with (2 ^ 0) at 1 2 3 4 5 6.
  rewrite !truthy_land_bit by lia.
  repeat split.
Qed.

Lemma get_control_decodes_witness :
  _get_binary 54 (session control_reply)
  = (Ok [0x01; 0x01],
     exchanged [0x70; 0; 54; 0x00; 0xa6] (session control_reply))
  /\ get_remote (session control_reply)
     = (Ok (Bool (Z.testbit 0x01 0)),
        exchanged [0x70; 0; 54; 0x00; 0xa6] (session control_reply)).
Proof.
  assert (H : _get_binary 54 (session control_reply)
              = (Ok [0x01; 0x01],
                 exchanged [0x70; 0; 54; 0x00; 0xa6] (session control_reply)))
    by reflexivity.
  split; [assumption|].
  exact (proj1 (proj2 (get_control_decodes [0x01; 0x01]
                         (session control_reply) _ H))).
Defined.

(** ** Scaling *)

Lemma all_from_spec (fuel : nat) (z : Z) (p : Z -> bool) :
  all_from fuel z p = true ->
  forall x, z <= x < z + Z.of_nat fuel -> p x = true.
Proof.
  revert z. induction fuel as [|n IH]; intros z H x Hx; [lia|].
  cbn [all_from] in H. apply andb_true_iff in H as [H1 H2].
  destruct (Z.eq_dec x z) as [->|Hne]; [exact H1|].
  apply (IH (z + 1)); [exact H2 | lia].
Qed.

Lemma converts_16bit : all_from (Z.to_nat 65536) 0 converts = true.
Proof. vm_compute. reflexivity. Qed.

Lemma scaled_16bit (nom : float) (raw : Z) :
  0 <= raw <= 65535 ->
  exists f,
    float_of_int raw = Ok f /\ scaled nom raw = Ok (nom * f / 25600)%float.
Proof.
  intros Hraw.
  pose proof (all_from_spec _ _ _ converts_16bit raw) as H.
  rewrite Z2Nat.id in H by lia. specialize (H ltac:(lia)).
  unfold converts in H.
  destruct (float_of_int raw) as [f|e] eqn:E; [|discriminate H].
  exists f. split; [reflexivity|].
  unfold scaled, float_mul, float_truediv. cbn [to_float Py.bind].
  rewrite E. reflexivity.
Qed.

Lemma word_16bit (hi lo : Z) :
  byte hi -> byte lo -> 0 <= Z.shiftl hi 8 + lo <= 65535.
Proof.
  unfold byte. intros Hhi Hlo. rewrite Z.shiftl_mul_pow2 by lia.
  change (2 ^ 8) with 256. lia.
Qed.

(** ** Actual values: flags, failures and printing *)

Lemma getitem_5 (b0 b1 b2 b3 b4 b5 : Z) (rest : list Z) :
  getitem (b0 :: b1 :: b2 :: b3 :: b4 :: b5 :: rest) 5 = Ok b5.
Proof.
  exact (getitem_lookup (b0 :: b1 :: b2 :: b3 :: b4 :: b5 :: rest) 5 b5
           eq_refl).
Qed.

(** X14: on received bytes [get_actual]'s decoding fails only for lack of
    bytes: on a payload shorter than six bytes it raises [IndexError], and
    on six or more it succeeds with these flags: remote = bit 0 or bit 1
    of byte 0, on = bit 0 of byte 1, CC = bit 1 or bit 2, OVP = bit 4,
    OCP = bit 5, OPP = bit 6, OTP = bit 7 of byte 1, and with v and i the
    scaled big-endian words of bytes 2-3 and 4-5. *)
Theorem decode_actual_fields (nom_u nom_i : float) (ans : list Z) :
  Forall byte ans ->
  match ans with
  | a0 :: a1 :: a2 :: a3 :: a4 :: a5 :: _ =>
      exists actual v i,
        decode_actual nom_u nom_i ans = Ok actual
        /\ scaled nom_u (Z.shiftl a2 8 + a3) = Ok v
        /\ scaled nom_i (Z.shiftl a4 8 + a5) = Ok i
        /\ actual !! "remote"
           = Some (Bool (Z.testbit a0 0 || Z.testbit a0 1))
        /\ actual !! "on" = Some (Bool (Z.testbit a1 0))
        /\ actual !! "CC" = Some (Bool (Z.testbit a1 1 || Z.testbit a1 2))
        /\ actual !! "OVP" = Some (Bool (Z.testbit a1 4))
        /\ actual !! "OCP" = Some (Bool (Z.testbit a1 5))
        /\ actual !! "OPP" = Some (Bool (Z.testbit a1 6))
        /\ actual !! "OTP" = Some (Bool (Z.testbit a1 7))
        /\ actual !! "v" = Some (Number v)
        /\ actual !! "i" = Some (Number i)
  | _ => decode_actual nom_u nom_i ans = Raise IndexError
  end.
Proof.
  intros Hb.
  destruct ans as [|a0 [|a1 [|a2 [|a3 rest]]]]; try reflexivity.
  repeat match goal with
         | H : Forall byte (_ :: _) |- _ =>
             let Hx := fresh "Hbyte" in
             apply Forall_cons in H as [Hx H]
         end.
  destruct (scaled_16bit nom_u _ (word_16bit a2 a3 Hbyte1 Hbyte2))
    as (fv & _ & Hv).
  unfold decode_actual.
  rewrite getitem_0, getitem_1, getitem_2, getitem_3. cbn [Py.bind].
  rewrite Hv. cbn [Py.bind].
  destruct rest as [|a4 [|a5 rest]]; [reflexivity | reflexivity |].
  repeat match goal with
         | H : Forall byte (_ :: _) |- _ =>
             let Hx := fresh "Hbyte" in
             apply Forall_cons in H as [Hx H]
         end.
  destruct (scaled_16bit nom_i _ (word_16bit a4 a5 Hbyte3 Hbyte4))
    as (fi & _ & Hi).
  rewrite getitem_4, getitem_5. cbn [Py.bind].
  rewrite Hi. cbn [Py.bind].
  eexists. exists (nom_u * fv / 25600)%float, (nom_i * fi / 25600)%float.
  split; [reflexivity|]. split; [reflexivity|]. split; [reflexivity|].
  change 0x03 with (Z.lor (2 ^ 0) (2 ^ 1)).
  change 0x06 with (Z.lor (2 ^ 1) (2 ^ 2)).
  change 0x01 with (2 ^ 0). change 0x10 with (2 ^ 4).
  change 0x20 with (2 ^ 5). change 0x40 with (2 ^ 6).
  change 0x80 with (2 ^ 7).
  rewrite !truthy_land_two_bits, !truthy_land_bit by lia.
  repeat split.
Qed.

Lemma decode_actual_fields_witness :
  Forall byte [0x01; 0x01; 0x32; 0x00; 0x19; 0x00]
  /\ exists actual v i,
       decode_actual 42 10 [0x01; 0x01; 0x32; 0x00; 0x19; 0x00] = Ok actual
       /\ scaled 42 (Z.shiftl 0x32 8 + 0x00) = Ok v
       /\ scaled 10 (Z.shiftl 0x19 8 + 0x00) = Ok i
       /\ actual !! "remote"
          = Some (Bool (Z.testbit 0x01 0 || Z.testbit 0x01 1))
       /\ actual !! "on" = Some (Bool (Z.testbit 0x01 0))
       /\ actual !! "CC" = Some (Bool (Z.testbit 0x01 1 || Z.testbit 0x01 2))
       /\ actual !! "OVP" = Some (Bool (Z.testbit 0x01 4))
       /\ actual !! "OCP" = Some (Bool (Z.testbit 0x01 5))
       /\ actual !! "OPP" = Some (Bool (Z.testbit 0x01 6))
       /\ actual !! "OTP" = Some (Bool (Z.testbit 0x01 7))
       /\ actual !! "v" = Some (Number v)
       /\ actual !! "i" = Some (Number i).
Proof.
  assert (H : Forall byte [0x01; 0x01; 0x32; 0x00; 0x19; 0x00])
    by (repeat constructor; unfold byte; lia).
  split; [assumption|].
  exact (decode_actual_fields 42 10 [0x01; 0x01; 0x32; 0x00; 0x19; 0x00] H).
Defined.

Lemma decode_actual_keys (nom_u nom_i : float) (ans : list Z)
  (actual : gmap string value) :
  decode_actual nom_u nom_i ans = Ok actual ->
  exists r o c p1 p2 p3 p4 v i,
    actual !! "remote" = Some (Bool r)
    /\ actual !! "on" = Some (Bool o)
    /\ actual !! "CC" = Some (Bool c)
    /\ actual !! "OVP" = Some (Bool p1)
    /\ actual !! "OCP" = Some (Bool p2)
    /\ actual !! "OPP" = Some (Bool p3)
    /\ actual !! "OTP" = Some (Bool p4)
    /\ actual !! "v" = Some (Number v)
    /\ actual !! "i" = Some (Number i).
Proof.
  unfold decode_actual.
  destruct (getitem ans 0) as [a0|e]; cbn [Py.bind]; [|discriminate].
  destruct (getitem ans 1) as [a1|e]; cbn [Py.bind]; [|discriminate].
  destruct (getitem ans 2) as [a2|e]; cbn [Py.bind]; [|discriminate].
  destruct (getitem ans 3) as [a3|e]; cbn [Py.bind]; [|discriminate].
  destruct (scaled nom_u _) as [v|e]; cbn [Py.bind]; [|discriminate].
  destruct (getitem ans 4) as [a4|e]; cbn [Py.bind]; [|discriminate].
  destruct (getitem ans 5) as [a5|e]; cbn [Py.bind]; [|discriminate].
  destruct (scaled nom_i _) as [i|e]; cbn [Py.bind]; [|discriminate].
  intros [= <-]. do 7 eexists. exists v, i. repeat split.
Qed.

Lemma print_flag_bool
  (actual : gmap string value) (key yes no : string) (b : bool) (w : world) :
  actual !! key = Some (Bool b) ->
  print_flag actual key yes no w
  = (Ok tt, emit w [Printed (if b then yes else no) [] true]).
Proof.
  intros H. unfold print_flag, mbind, lift, dict_getitem. rewrite H.
  now destruct b.
Qed.

Lemma print_number_float
  (actual : gmap string value) (key fmt : string) (f : float) (w : world) :
  actual !! key = Some (Number f) ->
  print_number actual key fmt w
  = (Ok tt, emit w [Printed fmt [ArgFloat f] true]).
Proof.
  intros H. unfold print_number, mbind, lift, dict_getitem. now rewrite H.
Qed.

(** X15: asking [get_actual] to print changes nothing but the output:
    whenever [get_actual()] returns a dictionary, [get_actual(True)]
    returns the same dictionary, finds every key it prints (no
    [KeyError]) and adds exactly nine lines to the output. *)
Theorem get_actual_print_state
  (w w' : world) (actual : gmap string value) :
  get_actual false w = (Ok actual, w') ->
  exists out,
    length out = 9%nat
    /\ Forall (fun p => newline p = true) out
    /\ get_actual true w = (Ok actual, emit w' out).
Proof.
  unfold get_actual, mbind, get_u_nom, get_i_nom, lift, ret.
  destruct (_get_binary 71 w) as [[ans|e] w1]; [|discriminate].
  destruct (decode_actual (u_nom w1) (i_nom w1) ans) as [act|e] eqn:D;
    [|discriminate].
  intros [= <- <-].
  destruct (decode_actual_keys _ _ _ _ D)
    as (r & o & c & p1 & p2 & p3 & p4 & v & i
        & Hr & Ho & Hc & H1 & H2 & H3 & H4 & Hv & Hi).
  rewrite (print_flag_bool _ _ _ _ _ _ Hr).
  rewrite (print_flag_bool _ _ _ _ _ _ Ho).
  rewrite (print_flag_bool _ _ _ _ _ _ Hc).
  rewrite (print_flag_bool _ _ _ _ _ _ H1).
  rewrite (print_flag_bool _ _ _ _ _ _ H2).
  rewrite (print_flag_bool _ _ _ _ _ _ H3).
  rewrite (print_flag_bool _ _ _ _ _ _ H4).
  rewrite (print_number_float _ _ _ _ _ Hv).
  rewrite (print_number_float _ _ _ _ _ Hi).
  rewrite !emit_emit. eexists. split; [|split; [|reflexivity]].
  - reflexivity.
  - repeat constructor.
Qed.

Lemma get_actual_print_state_witness :
  get_actual false (session actual_reply)
  = (Ok actual_reply_values,
     exchanged [0x70; 0; 71; 0x00; 0xb7] (session actual_reply))
  /\ exists out,
       length out = 9%nat
       /\ Forall (fun p => newline p = true) out
       /\ get_actual true (session actual_reply)
          = (Ok actual_reply_values,
             emit (exchanged [0x70; 0; 71; 0x00; 0xb7]
                     (session actual_reply)) out).
Proof.
  assert (H : get_actual false (session actual_reply)
              = (Ok actual_reply_values,
                 exchanged [0x70; 0; 71; 0x00; 0xb7] (session actual_reply)))
    by (vm_compute; reflexivity).
  split; [assumption|].
  exact (get_actual_print_state (session actual_reply) _ _ H).
Defined.
